(** * cli7z: the output parser and the password / extraction workflows

    A shallow embedding of package [cli7z] (a Go wrapper around the 7-Zip
    command line tool).  Go strings are byte sequences and are modelled by
    [string]; Go maps [map[string]string] by [gmap string string]; the
    external process by a function from the argument vector to the
    combined output and the exit error. *)

From Stdlib Require Import Ascii NArith.
From stdpp Require Import gmap strings list fin_maps.

(** ** The functions of Go's [strings] package used by the source *)

Module strings.

(** [strings.HasPrefix(s, prefix)] *)
Fixpoint HasPrefix (s p : string) {struct p} : bool :=
  match p with
  | EmptyString => true
  | String a p' =>
      match s with
      | EmptyString => false
      | String b s' => if Ascii.eqb a b then HasPrefix s' p' else false
      end
  end.

(** [s[n:]], for [n <= len(s)] *)
Fixpoint drop (n : nat) (s : string) : string :=
  match n, s with
  | O, _ => s
  | S _, EmptyString => EmptyString
  | S n', String _ s' => drop n' s'
  end.

(** [strings.HasSuffix(s, suffix)]:
    [len(s) >= len(suffix) && s[len(s)-len(suffix):] == suffix] *)
Definition HasSuffix (s suf : string) : bool :=
  (String.length suf <=? String.length s)%nat
  && String.eqb (drop (String.length s - String.length suf) s) suf.

(** [strings.Contains(s, substr)]: some suffix of [s] starts with [substr]. *)
Fixpoint Contains (s sub : string) : bool :=
  if HasPrefix s sub then true
  else match s with
       | EmptyString => false
       | String _ s' => Contains s' sub
       end.

(** [strings.Cut(s, sep)]: split around the first instance of [sep];
    [None] is Go's [found == false]. *)
Fixpoint Cut (s sep : string) : option (string * string) :=
  if HasPrefix s sep then Some (EmptyString, drop (String.length sep) s)
  else match s with
       | EmptyString => None
       | String c s' =>
           match Cut s' sep with
           | Some (before, after) => Some (String c before, after)
           | None => None
           end
       end.

(** [strings.ReplaceAll(s, old, new)] for a non-empty [old] (the only use
    in the source has [old = "Type = "]): the non-overlapping instances
    of [old] are replaced from left to right.  [skip] counts the bytes
    of a matched instance that are still to be passed over. *)
Fixpoint replaceFrom (skip : nat) (s old new : string) : string :=
  match s with
  | EmptyString => EmptyString
  | String c s' =>
      match skip with
      | S k => replaceFrom k s' old new
      | O =>
          if HasPrefix s old
          then new +:+ replaceFrom (String.length old - 1) s' old new
          else String c (replaceFrom 0 s' old new)
      end
  end.

Definition ReplaceAll (s old new : string) : string := replaceFrom 0 s old new.

End strings.

Arguments strings.HasPrefix : simpl never.
Arguments strings.Contains : simpl never.
Arguments strings.Cut : simpl never.
Arguments strings.ReplaceAll : simpl never.

(** ** Errors *)

(** The values of Go's [error] interface that the package can produce or
    pass on. *)
Inductive error : Type :=
| errorString (msg : string)     (* errors.New(msg) *)
| ExitError (code : nat)         (* *exec.ExitError: the tool exited non-zero *)
| ExecError (msg : string)       (* *exec.Error: the tool could not be started *)
| ErrTooLong.                    (* bufio.ErrTooLong *)

Module errors.
Definition New (msg : string) : error := errorString msg.
End errors.

#[global] Instance error_eq_dec : EqDecision error.
Proof. solve_decision. Defined.

(** ** [bufio.Scanner] with the default split function [ScanLines] *)

Module bufio.

(** [bufio.MaxScanTokenSize = 64 * 1024] *)
Definition MaxScanTokenSize : N := 65536.

Definition newline : ascii := ascii_of_nat 10.
Definition cr : ascii := ascii_of_nat 13.

(** [dropCR] of scan.go, on the line kept in reverse: one trailing
    carriage return is dropped. *)
Definition dropCR (rev_line : list ascii) : list ascii :=
  match rev_line with
  | c :: t => if Ascii.eqb c cr then t else rev_line
  | [] => []
  end.

Definition token (rev_line : list ascii) : string :=
  String.string_of_list_ascii (reverse (dropCR rev_line)).

(** The loop [for scanner.Scan() { lines = append(lines, scanner.Text()) }]
    followed by [scanner.Err()].  [cur] is the pending line in reverse and
    [n] its length.  A line ends at a newline or at the end of the data; a
    non-terminated empty rest yields no token.  The scanner's buffer grows
    to [max] bytes at most: when [max] bytes are pending without a
    newline among them the scan stops with [ErrTooLong], the lines
    delivered before it stay delivered. *)
Fixpoint scan (max : N) (data : string) (cur : list ascii) (n : N)
  : list string * option error :=
  match data with
  | EmptyString =>
      if (n =? 0)%N then ([], None)
      else if (max <=? n)%N then ([], Some ErrTooLong)
      else ([token cur], None)
  | String c rest =>
      if Ascii.eqb c newline then
        if (max <=? n)%N then ([], Some ErrTooLong)
        else let '(ls, e) := scan max rest [] 0%N in (token cur :: ls, e)
      else scan max rest (c :: cur) (n + 1)%N
  end.

Definition ScanLines (data : string) : list string * option error :=
  scan MaxScanTokenSize data [] 0%N.

End bufio.

(** ** The package's data *)

Definition BINARY_NAME : string := "7zz".

Record THeader := mkTHeader { HData : gmap string string }.
Record TEntry := mkTEntry { EData : gmap string string }.

Definition newHeader : THeader := mkTHeader ∅.
Definition newEntry : TEntry := mkTEntry ∅.

Module THeader_.
(** [(h *THeader) addKey]: the separator " = ", and ": " when the first
    is absent. *)
Definition addKey (h : THeader) (s : string) : THeader :=
  match strings.Cut s " = " with
  | Some (key, value) => mkTHeader (<[key := value]> (HData h))
  | None =>
      match strings.Cut s ": " with
      | Some (key, value) => mkTHeader (<[key := value]> (HData h))
      | None => h
      end
  end.
End THeader_.

Module TEntry_.
(** [(e *TEntry) addKey]: the separator " = " only. *)
Definition addKey (e : TEntry) (s : string) : TEntry :=
  match strings.Cut s " = " with
  | Some (key, value) => mkTEntry (<[key := value]> (EData e))
  | None => e
  end.
End TEntry_.

(** [Header] is a pointer in the source: [None] is [nil]. *)
Record TFile := mkTFile {
  File : string;
  Type_ : string;
  Listing : string;
  Header : option THeader;
  Entries : list TEntry;
  Encrypted : bool;
  Password : string;
  ErrorState : string
}.

(** [&TFile{}] *)
Definition zeroTFile : TFile :=
  mkTFile "" "" "" None [] false "" "".

(** Field updates [f.X = v]. *)
Definition setFile (f : TFile) (v : string) : TFile :=
  mkTFile v (Type_ f) (Listing f) (Header f) (Entries f) (Encrypted f)
          (Password f) (ErrorState f).
Definition setType (f : TFile) (v : string) : TFile :=
  mkTFile (File f) v (Listing f) (Header f) (Entries f) (Encrypted f)
          (Password f) (ErrorState f).
Definition setListing (f : TFile) (v : string) : TFile :=
  mkTFile (File f) (Type_ f) v (Header f) (Entries f) (Encrypted f)
          (Password f) (ErrorState f).
Definition setHeader (f : TFile) (v : option THeader) : TFile :=
  mkTFile (File f) (Type_ f) (Listing f) v (Entries f) (Encrypted f)
          (Password f) (ErrorState f).
Definition setEntries (f : TFile) (v : list TEntry) : TFile :=
  mkTFile (File f) (Type_ f) (Listing f) (Header f) v (Encrypted f)
          (Password f) (ErrorState f).
Definition setEncrypted (f : TFile) (v : bool) : TFile :=
  mkTFile (File f) (Type_ f) (Listing f) (Header f) (Entries f) v
          (Password f) (ErrorState f).
Definition setErrorState (f : TFile) (v : string) : TFile :=
  mkTFile (File f) (Type_ f) (Listing f) (Header f) (Entries f) (Encrypted f)
          (Password f) v.

(** ** The block cursor *)

Module Cursor.

Record TCursor := mkTCursor {
  Preamble : bool;
  Header : bool;
  Entries : bool
}.

(** [var cursor TCursor] *)
Definition zero : TCursor := mkTCursor false false false.

Definition Start (c : TCursor) : TCursor := mkTCursor true false false.

Definition Next (c : TCursor) : TCursor :=
  if Preamble c then mkTCursor false true false
  else if Header c then mkTCursor false false true
  else c.

End Cursor.

(** ** The detailed-listing parser: the loop of [getInfo] *)

(** The variables the loop works on: the handle [f], the entry under
    construction and the cursor. *)
Record loopState := mkLoop {
  lf : TFile;
  lentry : TEntry;
  lcursor : Cursor.TCursor
}.

(** What one iteration does: go on to the next line, or leave [getInfo]
    with [return err]. *)
Inductive flow (S : Type) : Type :=
| Continue (st : S)
| Return (f : TFile) (err : option error).
Arguments Continue {S} st.
Arguments Return {S} f err.

Definition nl : string := String bufio.newline EmptyString.

(** The body of [for i := 0; i < len(lines); i++] in [getInfo], at
    [line = lines[i]].  [f.Header] is not nil there: it was assigned
    [newHeader()] before the loop. *)
Definition getInfoStep (st : loopState) (line : string) : flow loopState :=
  let f := lf st in
  if Cursor.Preamble (lcursor st) then
    if strings.HasPrefix line "ERROR:" then
      if strings.Contains line "encrypted archive" then
        Return (setEncrypted (setType f "encrypted archive") true) None
      else Return f (Some (errors.New line))
    else if String.eqb line "--" then
      Continue (mkLoop f (lentry st) (Cursor.Next (lcursor st)))
    else Continue st
  else if Cursor.Header (lcursor st) then
    if negb (String.eqb line "") then
      let f1 := if strings.HasPrefix line "Type = "
                then setType f (strings.ReplaceAll line "Type = " "")
                else f in
      let f2 := if strings.HasPrefix line "Encrypted = "
                then setEncrypted f1 (strings.HasSuffix line "+")
                else f1 in
      if String.eqb line "----------" then
        if String.eqb (Type_ f2) "" then
          Return f2 (Some (errors.New "not supported? error: no Type found"))
        else Continue (mkLoop f2 (lentry st) (Cursor.Next (lcursor st)))
      else
        Continue (mkLoop (setHeader f2 (flip THeader_.addKey line <$> Header f2))
                         (lentry st) (lcursor st))
    else Continue st
  else
    if negb (String.eqb line "") then
      let f1 := if strings.HasPrefix line "Encrypted = "
                then if strings.HasSuffix line "+" then setEncrypted f true else f
                else f in
      Continue (mkLoop f1 (TEntry_.addKey (lentry st) line) (lcursor st))
    else
      Continue (mkLoop (setEntries f (Entries f ++ [lentry st])) newEntry
                       (lcursor st)).

Fixpoint getInfoLoop (st : loopState) (lines : list string) : flow loopState :=
  match lines with
  | [] => Continue st
  | line :: rest =>
      match getInfoStep st line with
      | Continue st' => getInfoLoop st' rest
      | Return f err => Return f err
      end
  end.

(** The loop variables when the loop of [getInfo] is entered:
    [f.Header = newHeader()], [entry := newEntry()], [cursor.Start()]. *)
Definition getInfoStart (f : TFile) : loopState :=
  mkLoop (setHeader f (Some newHeader)) newEntry (Cursor.Start Cursor.zero).

(** ** The simple-listing parser: the loop of [getListing] *)

Definition getListingStep (st : TFile * Cursor.TCursor) (line : string)
  : flow (TFile * Cursor.TCursor) :=
  let '(f, cursor) := st in
  if Cursor.Preamble cursor then
    if strings.HasPrefix line "ERROR:" then Return f (Some (errors.New line))
    else if String.eqb line "--" then Continue (f, Cursor.Next cursor)
    else Continue st
  else if Cursor.Header cursor then
    let f1 := setListing f (Listing f +:+ line +:+ nl) in
    if String.eqb line "" then Continue (f1, Cursor.Next cursor)
    else Continue (f1, cursor)
  else Continue (setListing f (Listing f +:+ line +:+ nl), cursor).

Fixpoint getListingLoop (st : TFile * Cursor.TCursor) (lines : list string)
  : flow (TFile * Cursor.TCursor) :=
  match lines with
  | [] => Continue st
  | line :: rest =>
      match getListingStep st line with
      | Continue st' => getListingLoop st' rest
      | Return f err => Return f err
      end
  end.

(** The scan of the lines of a tool output for the confirmation line, as
    in [TestPassword]. *)
Fixpoint passwordVerdict (lines : list string) : bool :=
  match lines with
  | [] => false
  | line :: rest =>
      if String.eqb line "Everything is Ok" then true
      else if strings.Contains line "Wrong password?" then false
      else passwordVerdict rest
  end.

(** The scan of the lines of a tool output as in [ExtractWithPassword]. *)
Fixpoint hasOkLine (lines : list string) : bool :=
  match lines with
  | [] => false
  | line :: rest =>
      if String.eqb line "Everything is Ok" then true else hasOkLine rest
  end.

(** How a call of [ExtractWithPassword] ends: it returns its error value,
    or [log.Fatal] ends the process. *)
Inductive extractOutcome : Type :=
| Returned (err : option error)
| Fatal (err : error).

(** ** The operations that run the tool *)

Section Engine.

(** [exec.Command(name, args...).CombinedOutput()] *)
Variable CombinedOutput : string → list string → string * option error.

Definition getListing (f : TFile) : TFile * option error :=
  let '(data, err) := CombinedOutput BINARY_NAME ["l"; "-p"; File f] in
  match err with
  | Some e => (setErrorState f data, Some e)
  | None =>
      let '(lines, serr) := bufio.ScanLines data in
      match serr with
      | Some e => (f, Some e)
      | None =>
          match getListingLoop (f, Cursor.Start Cursor.zero) lines with
          | Return f' e => (f', e)
          | Continue (f', _) => (f', None)
          end
      end
  end.

Definition getInfo (f0 : TFile) (file : string) : TFile * option error :=
  let f := setFile f0 file in
  let '(data, err) := CombinedOutput BINARY_NAME ["l"; "-slt"; "-p"; File f] in
  match err with
  | Some e => (setErrorState f data, Some e)
  | None =>
      let '(lines, serr) := bufio.ScanLines data in
      match serr with
      | Some e => (f, Some e)
      | None =>
          match getInfoLoop (getInfoStart f) lines with
          | Return f' e => (f', e)
          | Continue st => getListing (lf st)
          end
      end
  end.

Definition Open (file : string) : TFile * option error :=
  getInfo zeroTFile file.

(** [TestPassword] returns the verdict; the handle is returned too since
    [f.ErrorState] may be written. *)
Definition TestPassword (f : TFile) (password : string) : bool * TFile :=
  if String.eqb (Type_ f) "" || negb (Encrypted f) then (false, f)
  else
    let password := "-p" +:+ password in
    let '(data, err) := CombinedOutput BINARY_NAME ["t"; "-bd"; password; File f] in
    match err with
    | Some _ => (false, setErrorState f data)
    | None =>
        let '(lines, serr) := bufio.ScanLines data in
        match serr with
        | Some _ => (false, f)
        | None => (passwordVerdict lines, f)
        end
    end.

Definition ExtractWithPassword (f : TFile) (folder password : string)
  : extractOutcome * TFile :=
  let '(data, _) :=
    CombinedOutput BINARY_NAME
      ["x"; "-aoa"; "-bd"; "-p" +:+ password; "-o" +:+ folder; File f] in
  let '(lines, serr) := bufio.ScanLines data in
  match serr with
  | Some e => (Fatal e, f)
  | None =>
      if hasOkLine lines then (Returned None, f)
      else (Returned (Some (errors.New data)), f)
  end.

Definition ExtractTo (f : TFile) (folder : string) : extractOutcome * TFile :=
  ExtractWithPassword f folder "".

End Engine.

(** ** Vocabulary of the statements *)

(** The tool as the package sees it: the program name and the argument
    vector give the combined output and the error of the run. *)
Definition engine : Type := string → list string → string * option error.

(** The argument vectors of the four invocations. *)
Definition detailedArgs (file : string) : list string := ["l"; "-slt"; "-p"; file].
Definition simpleArgs (file : string) : list string := ["l"; "-p"; file].
Definition testArgs (password file : string) : list string :=
  ["t"; "-bd"; "-p" +:+ password; file].
Definition extractArgs (password folder file : string) : list string :=
  ["x"; "-aoa"; "-bd"; "-p" +:+ password; "-o" +:+ folder; file].

(** The phase a cursor is in, as the branches of the loops read it. *)
Definition inPreamble (c : Cursor.TCursor) : Prop := Cursor.Preamble c = true.
Definition inHeader (c : Cursor.TCursor) : Prop :=
  Cursor.Preamble c = false ∧ Cursor.Header c = true.
Definition inEntries (c : Cursor.TCursor) : Prop :=
  Cursor.Preamble c = false ∧ Cursor.Header c = false.

(** Exactly one of the three flags is set. *)
Definition exactlyOne (c : Cursor.TCursor) : bool :=
  match Cursor.Preamble c, Cursor.Header c, Cursor.Entries c with
  | true, false, false | false, true, false | false, false, true => true
  | _, _, _ => false
  end.

(** The position of the phase in the order Preamble, Header, Entries. *)
Definition phaseRank (c : Cursor.TCursor) : nat :=
  if Cursor.Preamble c then 0 else if Cursor.Header c then 1 else 2.

(** The cursor after [n] calls of [Next] on a started cursor. *)
Definition advanced (n : nat) (c0 : Cursor.TCursor) : Cursor.TCursor :=
  Nat.iter n Cursor.Next (Cursor.Start c0).

(** The handle a loop result carries. *)
Definition handleOf (r : flow loopState) : TFile :=
  match r with
  | Continue st => lf st
  | Return f _ => f
  end.

(** What [getListing] leaves alone: every field but [Listing] and
    [ErrorState]. *)
Definition keptByListing (f f' : TFile) : Prop :=
  File f' = File f ∧ Type_ f' = Type_ f ∧ Header f' = Header f
  ∧ Entries f' = Entries f ∧ Encrypted f' = Encrypted f
  ∧ Password f' = Password f.

(** A line the preamble passes over. *)
Definition preambleLine (l : string) : Prop :=
  strings.HasPrefix l "ERROR:" = false ∧ l ≠ "--".

(** The key/value pair a header line denotes for [THeader.addKey]. *)
Definition headerPair (l : string) : option (string * string) :=
  match strings.Cut l " = " with
  | Some p => Some p
  | None => strings.Cut l ": "
  end.

(** A line of a header block whose Type is Zip and whose Encrypted mark
    is "-": it is not the delimiter, and if it denotes a pair for one of
    these two keys, the value is that one. *)
Definition headerLineZip (l : string) : Prop :=
  l ≠ "----------"
  ∧ (∀ v, headerPair l = Some ("Type", v) → v = "Zip")
  ∧ (∀ v, headerPair l = Some ("Encrypted", v) → v = "-").

(** The key/value pairs of the " = "-separated lines of a stanza. *)
Definition stanzaPairs (stanza : list string) : list (string * string) :=
  omap (λ l, strings.Cut l " = ") stanza.

(** The lines of a text, each terminated by a newline. *)
Definition unlines (ls : list string) : string :=
  foldr (λ l acc, l +:+ nl +:+ acc) "" ls.

(** A stand-in for the tool: the result of each of the four invocations
    is fixed in advance. *)
Definition scripted (detailed simple test extract : string * option error)
  (name : string) (args : list string) : string * option error :=
  match args with
  | cmd :: opt :: _ =>
      if String.eqb cmd "l" then
        if String.eqb opt "-slt" then detailed else simple
      else if String.eqb cmd "t" then test
      else extract
  | _ => ("", Some (ExecError "usage"))
  end.

Definition noRun : string * option error := ("", Some (ExitError 2)).

(** Sample outputs of the tool. *)
Definition sampleNestedType : string :=
  unlines ["--"; "Type = aType = b"; "----------"].

(** The fields no iteration writes. *)
Definition sameFrame (f f' : TFile) : Prop :=
  File f' = File f ∧ Password f' = Password f
  ∧ ErrorState f' = ErrorState f ∧ Listing f' = Listing f
  ∧ (is_Some (Header f) → is_Some (Header f')).

(** Before the entries phase the entry sequence and the entry under
    construction are as they were when the loop was entered. *)
Definition untouched (st : loopState) : Prop :=
  inEntries (lcursor st) ∨ (Entries (lf st) = [] ∧ lentry st = newEntry).

(** The number of blank lines among [ls]. *)
Definition blankCount (ls : list string) : nat :=
  length (filter (λ l, l = "") ls).

Definition sampleZip : string :=
  unlines ["7-Zip (z) 23.01"; ""; "Listing archive: a.zip"; ""; "--";
           "Path = a.zip"; "Type = Zip"; "Encrypted = -";
           "Physical Size = 310"; ""; "----------";
           "Path = x.txt"; "Size = 1"; "Encrypted = -"; "";
           "Path = y.txt"; "Size = 2"; "Encrypted = -"; ""].

Definition sampleListing : string :=
  unlines ["7-Zip (z) 23.01"; "--"; "Path = a.zip"; "Type = zip"; "";
           "   Date      Time    Attr         Size   Compressed  Name";
           "2024-01-01 10:00:00 .....            1            1  x.txt"].

Definition sampleNoType : string :=
  unlines ["7-Zip (z) 23.01"; "--"; "Path = a.bin"; ""; "----------";
           "Path = x.txt"; ""].

Definition sampleEncrypted : string :=
  unlines ["7-Zip (z) 23.01"; "";
           "ERROR: a.7z : Can not open encrypted archive. Wrong password?"].

Definition sampleTwoErrors : string :=
  unlines ["ERROR: a.7z : Unsupported Method";
           "ERROR: a.7z : Can not open encrypted archive. Wrong password?"].

Definition sampleTestOk : string :=
  unlines ["7-Zip (z) 23.01"; ""; "Everything is Ok"].

Definition sampleOkThenWrong : string :=
  unlines ["Everything is Ok"; "ERROR: Wrong password? : b.7z"].

(** A line of [bufio.MaxScanTokenSize] bytes. *)
Definition longLine : string := Pos.iter (String "a") "" 65536.

Definition sampleOkThenLong : string := "Everything is Ok" +:+ nl +:+ longLine.

(** An opened handle of an encrypted archive. *)
Definition sampleHandle : TFile :=
  mkTFile "a.7z" "7z" "" (Some newHeader) [] true "" "".

Definition zipRun : engine :=
  scripted (sampleZip, None) (sampleListing, None) noRun noRun.

(** A line of the entries phase that marks its entry as encrypted. *)
Definition encryptedMark (l : string) : bool :=
  strings.HasPrefix l "Encrypted = " && strings.HasSuffix l "+".

(** The entry a stanza builds, and the lines of a sequence of stanzas,
    each followed by its blank line. *)
Definition entryOf (stanza : list string) : TEntry :=
  foldl TEntry_.addKey newEntry stanza.

Definition stanzaLines (stanzas : list (list string)) : list string :=
  concat (map (λ stanza, stanza ++ [""]) stanzas).

(** The Type and the Encrypted flag after the lines of a header block, in
    terms of the values before it. *)
Definition headerType (t0 : string) (hdr : list string) : string :=
  foldl (λ t l, if strings.HasPrefix l "Type = "
                then strings.ReplaceAll l "Type = " "" else t) t0 hdr.

Definition headerEncrypted (b0 : bool) (hdr : list string) : bool :=
  foldl (λ b l, if strings.HasPrefix l "Encrypted = "
                then strings.HasSuffix l "+" else b) b0 hdr.

(** In the entries phase the Type is known. *)
Definition typedEntries (st : loopState) : Prop :=
  inEntries (lcursor st) → Type_ (lf st) ≠ "".

(** A handle of an archive that is not encrypted. *)
Definition sampleOpenHandle : TFile :=
  mkTFile "m.zip" "zip" "" (Some newHeader) [] false "" "".

Definition sampleUnsupported : string :=
  unlines ["7-Zip (z) 23.01"; ""; "ERROR: a.bin : Can not open the file as archive"].

Definition sampleMixed : string :=
  unlines ["--"; "Path = m.zip"; "Type = zip"; "Encrypted = -"; "";
           "----------";
           "Path = open.txt"; "Encrypted = -"; "";
           "Path = secret.txt"; "Encrypted = +"; ""].

Definition sampleNoDelimiter : string :=
  unlines ["7-Zip (z) 23.01"; "Scanning the drive for archives:"].

(** ** Properties of the block cursor *)

Lemma advanced_shape (n : nat) (c0 : Cursor.TCursor) :
  advanced n c0 =
    match n with
    | 0 => Cursor.mkTCursor true false false
    | 1 => Cursor.mkTCursor false true false
    | _ => Cursor.mkTCursor false false true
    end.
Proof.
  induction n as [|n IH]; [reflexivity|].
  change (advanced (S n) c0) with (Cursor.Next (advanced n c0)).
  rewrite IH. destruct n as [|[|n]]; reflexivity.
Qed.

(** C9: after [Start] and any number of [Next] calls exactly one flag is
    set; [Next] takes Preamble to Header, Header to Entries and leaves
    Entries as it is, so the phase never moves backwards. *)
Theorem cursor_one_phase_forward (n : nat) (c0 : Cursor.TCursor) :
  let c := advanced n c0 in
  exactlyOne c = true
  ∧ exactlyOne (Cursor.Start c0) = true
  ∧ (Cursor.Preamble c = true →
       Cursor.Next c = Cursor.mkTCursor false true false)
  ∧ (Cursor.Header c = true →
       Cursor.Next c = Cursor.mkTCursor false false true)
  ∧ (Cursor.Entries c = true → Cursor.Next c = c)
  ∧ phaseRank c ≤ phaseRank (Cursor.Next c)
  ∧ phaseRank (Cursor.Next c) ≤ S (phaseRank c)
  ∧ (∀ m, n ≤ m → phaseRank c ≤ phaseRank (advanced m c0)).
Proof.
  intros c. subst c.
  split_and!; try intros m Hm; rewrite ?advanced_shape; try done.
  - by destruct n as [|[|n]].
  - by destruct n as [|[|n]].
  - by destruct n as [|[|n]].
  - by destruct n as [|[|n]].
  - destruct n as [|[|n]]; cbn; lia.
  - destruct n as [|[|n]]; cbn; lia.
  - destruct n as [|[|n]], m as [|[|m]]; cbn; lia.
Qed.

(** ** What the loop of [getInfo] leaves alone *)

Lemma sameFrame_refl (f : TFile) : sameFrame f f.
Proof. by unfold sameFrame. Qed.

Lemma sameFrame_trans (f g h : TFile) :
  sameFrame f g → sameFrame g h → sameFrame f h.
Proof.
  unfold sameFrame. intros (?&?&?&?&?) (?&?&?&?&?).
  split_and!; try congruence. auto.
Qed.

(** Splits the cases of one iteration of the loop of [getInfo]. *)
Ltac step_cases :=
  unfold getInfoStep; repeat case_match; simplify_eq/=.

Lemma getInfoStep_frame (st : loopState) (line : string) :
  sameFrame (lf st) (handleOf (getInfoStep st line)).
Proof.
  step_cases; unfold sameFrame; cbn; split_and!; try done.
  all: intros [h ->]; by eexists.
Qed.

Lemma getInfoLoop_frame (lines : list string) (st : loopState) :
  sameFrame (lf st) (handleOf (getInfoLoop st lines)).
Proof.
  revert st. induction lines as [|line rest IH]; intros st; cbn.
  - apply sameFrame_refl.
  - pose proof (getInfoStep_frame st line) as Hs.
    destruct (getInfoStep st line) as [st'|f e]; cbn in *; [|done].
    eapply sameFrame_trans; [exact Hs | apply IH].
Qed.

Lemma getInfoStep_untouched (st st' : loopState) (line : string) :
  untouched st → getInfoStep st line = Continue st' → untouched st'.
Proof.
  unfold untouched, inEntries. intros Hu.
  destruct st as [f e [p h en]]; cbn in *.
  step_cases; intros; simplify_eq/=; try (by right; destruct Hu as [[??]|?]);
    try (by left); destruct Hu as [[??]|?]; by (done || left || right).
Qed.

Lemma getInfoStep_return_early (st : loopState) (line : string) f err :
  untouched st → getInfoStep st line = Return f err → Entries f = [].
Proof.
  unfold untouched, inEntries. intros Hu.
  destruct st as [f0 e [p h en]]; cbn in *.
  step_cases; intros; simplify_eq/=; destruct Hu as [[??]|[??]]; done.
Qed.

Lemma getInfoLoop_untouched (lines : list string) (st st' : loopState) :
  untouched st → getInfoLoop st lines = Continue st' → untouched st'.
Proof.
  revert st. induction lines as [|line rest IH]; intros st Hu; cbn.
  - by intros [= <-].
  - destruct (getInfoStep st line) as [st1|f e] eqn:Hs; [|done].
    apply IH. by eapply getInfoStep_untouched.
Qed.

Lemma getInfoLoop_return_early (lines : list string) (st : loopState) f err :
  untouched st → getInfoLoop st lines = Return f err → Entries f = [].
Proof.
  revert st. induction lines as [|line rest IH]; intros st Hu; cbn; [done|].
  destruct (getInfoStep st line) as [st1|f1 e1] eqn:Hs.
  - apply IH. by eapply getInfoStep_untouched.
  - intros [= <- <-]. by eapply getInfoStep_return_early.
Qed.

Lemma getInfoStart_untouched (f : TFile) :
  Entries f = [] → untouched (getInfoStart f).
Proof. intros H. right. by unfold getInfoStart. Qed.

(** The loop over a concatenation. *)
Lemma getInfoLoop_app (l1 l2 : list string) (st : loopState) :
  getInfoLoop st (l1 ++ l2) =
    match getInfoLoop st l1 with
    | Continue st' => getInfoLoop st' l2
    | Return f e => Return f e
    end.
Proof.
  revert st. induction l1 as [|line rest IH]; intros st; cbn; [done|].
  destruct (getInfoStep st line); [apply IH | done].
Qed.

(** ** The entries phase *)

Lemma blank_line_step (st : loopState) :
  inEntries (lcursor st) →
  getInfoStep st "" =
    Continue (mkLoop (setEntries (lf st) (Entries (lf st) ++ [lentry st]))
                     newEntry (lcursor st)).
Proof. intros [Hp Hh]. unfold getInfoStep. by rewrite Hp, Hh. Qed.

Lemma stanza_line_step (st : loopState) (line : string) :
  inEntries (lcursor st) → line ≠ "" →
  ∃ f, getInfoStep st line =
         Continue (mkLoop f (TEntry_.addKey (lentry st) line) (lcursor st))
       ∧ Entries f = Entries (lf st)
       ∧ Header f = Header (lf st)
       ∧ Type_ f = Type_ (lf st).
Proof.
  intros [Hp Hh] Hne. unfold getInfoStep. rewrite Hp, Hh.
  apply String.eqb_neq in Hne. rewrite Hne. cbn.
  eexists; split; [reflexivity|]. by repeat case_match.
Qed.

Lemma entries_loop_total (ls : list string) (st : loopState) :
  inEntries (lcursor st) →
  ∃ st', getInfoLoop st ls = Continue st'
       ∧ lcursor st' = lcursor st
       ∧ length (Entries (lf st')) = length (Entries (lf st)) + blankCount ls.
Proof.
  revert st. induction ls as [|line rest IH]; intros st Hin.
  - exists st. cbn. split_and!; try done; unfold blankCount; cbn; lia.
  - destruct (decide (line = "")) as [->|Hne].
    + cbn [getInfoLoop]. rewrite (blank_line_step _ Hin).
      edestruct IH as (st' & -> & Hc & Hl); [exact Hin|].
      exists st'. split_and!; try done. rewrite Hl.
      unfold blankCount. rewrite filter_cons_True by done.
      cbn. rewrite length_app. cbn. lia.
    + destruct (stanza_line_step st line Hin Hne) as (f & Hs & He & _).
      cbn [getInfoLoop]. rewrite Hs.
      edestruct IH as (st' & -> & Hc & Hl); [exact Hin|].
      exists st'. split_and!; try done. rewrite Hl.
      unfold blankCount. rewrite filter_cons_False by done.
      cbn. by rewrite He.
Qed.

Lemma entries_loop_stanza (stanza : list string) (st : loopState) :
  inEntries (lcursor st) → Forall (λ l, l ≠ "") stanza →
  ∃ st', getInfoLoop st stanza = Continue st'
       ∧ lcursor st' = lcursor st
       ∧ Entries (lf st') = Entries (lf st)
       ∧ lentry st' = foldl TEntry_.addKey (lentry st) stanza
       ∧ Header (lf st') = Header (lf st)
       ∧ Type_ (lf st') = Type_ (lf st).
Proof.
  revert st. induction stanza as [|line rest IH]; intros st Hin Hall.
  - by exists st.
  - inversion Hall as [|? ? Hne Hrest]; subst.
    destruct (stanza_line_step st line Hin Hne) as (f & Hs & He & Hh & Ht).
    cbn [getInfoLoop]. rewrite Hs.
    edestruct IH as (st' & -> & Hc & Hl & Hk & Hh' & Ht');
      [exact Hin|exact Hrest|].
    exists st'. cbn in *. split_and!; try done; congruence.
Qed.

Lemma entries_loop_blanks (n : nat) (st : loopState) :
  inEntries (lcursor st) →
  ∃ st', getInfoLoop st (replicate (S n) "") = Continue st'
       ∧ lcursor st' = lcursor st
       ∧ Entries (lf st') = Entries (lf st) ++ lentry st :: replicate n newEntry
       ∧ lentry st' = newEntry.
Proof.
  revert st. induction n as [|n IH]; intros st Hin.
  - cbn. rewrite (blank_line_step _ Hin). by eexists.
  - change (replicate (S (S n)) "") with ("" :: replicate (S n) "").
    cbn [getInfoLoop]. rewrite (blank_line_step _ Hin).
    edestruct IH as (st' & -> & Hc & Hl & Hk); [exact Hin|].
    exists st'. split_and!; try done. rewrite Hl. cbn.
    by rewrite <- app_assoc.
Qed.

(** The step at the delimiter that ends the header block. *)
Lemma header_delimiter_step (st : loopState) :
  inHeader (lcursor st) →
  getInfoStep st "----------" =
    if String.eqb (Type_ (lf st)) ""
    then Return (lf st) (Some (errors.New "not supported? error: no Type found"))
    else Continue (mkLoop (lf st) (lentry st) (Cursor.mkTCursor false false true)).
Proof.
  intros [Hp Hh]. unfold getInfoStep, Cursor.Next. rewrite Hp, Hh. by cbn.
Qed.

Lemma run_after_delimiter (st0 hst : loopState) (pre ls : list string) :
  getInfoLoop st0 pre = Continue hst →
  inHeader (lcursor hst) → Type_ (lf hst) ≠ "" →
  getInfoLoop st0 (pre ++ "----------" :: ls) =
    getInfoLoop (mkLoop (lf hst) (lentry hst) (Cursor.mkTCursor false false true)) ls.
Proof.
  intros Hpre Hh Hty. rewrite getInfoLoop_app, Hpre.
  cbn [getInfoLoop]. rewrite (header_delimiter_step _ Hh).
  apply String.eqb_neq in Hty. by rewrite Hty.
Qed.

(** C10: in the entries phase an entry is appended exactly at the blank
    lines.  For a parse that has passed the header delimiter: the number
    of entries is the number of blank lines consumed after it; a run of
    non-blank lines at the end of the input appends nothing; a blank line
    appends one entry; blank lines directly after the delimiter, and
    every blank line that follows a blank line, append an entry with an
    empty mapping. *)
Theorem entries_appended_at_blank_lines
    (f0 : TFile) (pre stanza : list string) (hst : loopState) (n : nat) :
  Entries f0 = [] →
  getInfoLoop (getInfoStart f0) pre = Continue hst →
  inHeader (lcursor hst) →
  Type_ (lf hst) ≠ "" →
  Forall (λ l, l ≠ "") stanza →
  let run ls := getInfoLoop (getInfoStart f0) (pre ++ "----------" :: ls) in
  (∀ ls, ∃ st, run ls = Continue st
             ∧ length (Entries (lf st)) = blankCount ls)
  ∧ (∀ ls, Entries (handleOf (run (ls ++ stanza))) = Entries (handleOf (run ls)))
  ∧ (∀ ls, ∃ e, Entries (handleOf (run (ls ++ [""])))
                = Entries (handleOf (run ls)) ++ [e])
  ∧ Entries (handleOf (run (replicate n ""))) = replicate n newEntry
  ∧ (∀ ls, Entries (handleOf (run (ls ++ replicate (S n) "")))
           = Entries (handleOf (run (ls ++ [""]))) ++ replicate n newEntry).
Proof.
  intros Hf0 Hpre Hh Hty Hst run.
  set (st1 := mkLoop (lf hst) (lentry hst) (Cursor.mkTCursor false false true)).
  assert (Hrun : ∀ ls, run ls = getInfoLoop st1 ls).
  { intros ls. by apply run_after_delimiter. }
  assert (Hin : inEntries (lcursor st1)) by done.
  assert (Hfresh : Entries (lf st1) = [] ∧ lentry st1 = newEntry).
  { pose proof (getInfoLoop_untouched _ _ _ (getInfoStart_untouched _ Hf0) Hpre)
      as [[_ Hu]|Hu]; [|exact Hu].
    destruct Hh as [_ Hh]. congruence. }
  destruct Hfresh as [Hnil Hnew].
  assert (Hafter : ∀ ls, ∃ st, getInfoLoop st1 ls = Continue st
                             ∧ inEntries (lcursor st)
                             ∧ length (Entries (lf st)) = blankCount ls).
  { intros ls. destruct (entries_loop_total ls st1 Hin) as (st & Hl & Hc & Hn).
    exists st. split_and!; [done|by rewrite Hc|]. by rewrite Hn, Hnil. }
  split_and!.
  - intros ls. rewrite Hrun. destruct (Hafter ls) as (st & ? & ? & ?). eauto.
  - intros ls. rewrite !Hrun, getInfoLoop_app.
    destruct (Hafter ls) as (st & -> & Hc & _).
    destruct (entries_loop_stanza stanza st Hc Hst) as (st' & -> & _ & He & _).
    done.
  - intros ls. rewrite !Hrun, getInfoLoop_app.
    destruct (Hafter ls) as (st & -> & Hc & _).
    cbn [getInfoLoop]. rewrite (blank_line_step _ Hc). by eexists.
  - rewrite Hrun. destruct n as [|n]; [by cbn|].
    destruct (entries_loop_blanks n st1 Hin) as (st' & -> & _ & He & _).
    cbn [handleOf]. by rewrite He, Hnil, Hnew.
  - intros ls. rewrite !Hrun, !getInfoLoop_app.
    destruct (Hafter ls) as (st & -> & Hc & _).
    destruct (entries_loop_blanks n st Hc) as (st' & -> & _ & He & _).
    cbn [getInfoLoop]. rewrite (blank_line_step _ Hc). cbn.
    rewrite He. by rewrite <- app_assoc.
Qed.

(** ** Opening an archive *)

Lemma Open_parsed (run : engine) (file data : string) (lines : list string) :
  run BINARY_NAME (detailedArgs file) = (data, None) →
  bufio.ScanLines data = (lines, None) →
  Open run file =
    match getInfoLoop (getInfoStart (setFile zeroTFile file)) lines with
    | Return f e => (f, e)
    | Continue st => getListing run (lf st)
    end.
Proof.
  intros Hrun Hscan. unfold Open, getInfo. cbn [File setFile].
  unfold detailedArgs in Hrun. by rewrite Hrun, Hscan.
Qed.

Lemma preamble_line_step (st : loopState) (line : string) :
  inPreamble (lcursor st) → preambleLine line →
  getInfoStep st line = Continue st.
Proof.
  unfold inPreamble, preambleLine. intros Hp [He Hd].
  unfold getInfoStep. rewrite Hp, He.
  apply String.eqb_neq in Hd. by rewrite Hd.
Qed.

Lemma preamble_loop (pre : list string) (st : loopState) :
  inPreamble (lcursor st) → Forall preambleLine pre →
  getInfoLoop st pre = Continue st.
Proof.
  intros Hp Hall. induction Hall as [|line rest Hl _ IH]; [done|].
  cbn [getInfoLoop]. by rewrite (preamble_line_step _ _ Hp Hl).
Qed.

Lemma preamble_error_step (st : loopState) (line : string) :
  inPreamble (lcursor st) → strings.HasPrefix line "ERROR:" = true →
  getInfoStep st line =
    if strings.Contains line "encrypted archive"
    then Return (setEncrypted (setType (lf st) "encrypted archive") true) None
    else Return (lf st) (Some (errors.New line)).
Proof.
  unfold inPreamble. intros Hp He. unfold getInfoStep. by rewrite Hp, He.
Qed.

(** C5: when the parse reaches the delimiter "----------" in the header
    phase with the Type still empty, [Open] fails with the format error
    and no entry has been produced. *)
Theorem open_fails_without_type
    (run : engine) (file data : string) (pre rest : list string)
    (hst : loopState) :
  run BINARY_NAME (detailedArgs file) = (data, None) →
  bufio.ScanLines data = (pre ++ "----------" :: rest, None) →
  getInfoLoop (getInfoStart (setFile zeroTFile file)) pre = Continue hst →
  inHeader (lcursor hst) →
  Type_ (lf hst) = "" →
  ∃ f, Open run file
       = (f, Some (errors.New "not supported? error: no Type found"))
     ∧ Entries f = [] ∧ Type_ f = "".
Proof.
  intros Hrun Hscan Hpre Hh Hty.
  rewrite (Open_parsed _ _ _ _ Hrun Hscan), getInfoLoop_app, Hpre.
  cbn [getInfoLoop]. rewrite (header_delimiter_step _ Hh), Hty. cbn.
  exists (lf hst). split_and!; try done.
  assert (Hu : untouched hst).
  { eapply getInfoLoop_untouched; [|exact Hpre].
    by apply getInfoStart_untouched. }
  destruct Hu as [[_ Hu]|[Hu _]]; [|done].
  destruct Hh as [_ Hh]. congruence.
Qed.

(** C1 as amended: when the first preamble line that begins with "ERROR:"
    contains "encrypted archive" (the tool having exited with status zero
    and its output having been split into lines), [Open] succeeds with Type
    "encrypted archive", the Encrypted flag set, an empty Header mapping
    and no entries. *)
Theorem open_encrypted_sentinel
    (run : engine) (file data l : string) (pre rest : list string) :
  run BINARY_NAME (detailedArgs file) = (data, None) →
  bufio.ScanLines data = (pre ++ l :: rest, None) →
  Forall preambleLine pre →
  strings.HasPrefix l "ERROR:" = true →
  strings.Contains l "encrypted archive" = true →
  Open run file
  = (mkTFile file "encrypted archive" "" (Some newHeader) [] true "" "", None).
Proof.
  intros Hrun Hscan Hpre He Hc.
  rewrite (Open_parsed _ _ _ _ Hrun Hscan), getInfoLoop_app.
  rewrite preamble_loop by done.
  cbn [getInfoLoop]. rewrite preamble_error_step by done.
  by rewrite Hc.
Qed.

Lemma getInfoLoop_File (lines : list string) (f : TFile) :
  File (handleOf (getInfoLoop (getInfoStart f) lines)) = File f.
Proof. by destruct (getInfoLoop_frame lines (getInfoStart f)) as (? & _). Qed.

(** C8: the result of [Open] is determined by the results of its two
    invocations of the tool: two runs that observe the same detailed
    listing and the same simple listing return the same handle (Header,
    Entries in the same order, Type, Encrypted, Listing and all other
    fields) and the same error. *)
Theorem Open_deterministic (run1 run2 : engine) (file : string) :
  run1 BINARY_NAME (detailedArgs file) = run2 BINARY_NAME (detailedArgs file) →
  run1 BINARY_NAME (simpleArgs file) = run2 BINARY_NAME (simpleArgs file) →
  Open run1 file = Open run2 file.
Proof.
  unfold detailedArgs, simpleArgs. intros Hd Hs.
  unfold Open, getInfo. cbn [File setFile]. rewrite Hd.
  destruct (run2 BINARY_NAME _) as [data [e|]]; [done|].
  destruct (bufio.ScanLines data) as [lines [e|]]; [done|].
  pose proof (getInfoLoop_File lines (setFile zeroTFile file)) as Hfile.
  destruct (getInfoLoop _ lines) as [st|f e]; [|done].
  cbn in Hfile. unfold getListing. by rewrite Hfile, Hs.
Qed.

(** ** Password verification *)

Lemma passwordVerdict_true_iff (lines : list string) :
  passwordVerdict lines = true ↔
  ∃ before after,
    lines = before ++ "Everything is Ok" :: after
    ∧ Forall (λ l, strings.Contains l "Wrong password?" = false) before.
Proof.
  induction lines as [|line rest IH]; cbn [passwordVerdict].
  - split; [done|]. intros (before & after & Heq & _). by destruct before.
  - destruct (String.eqb_spec line "Everything is Ok") as [->|Hne].
    + split; [|done]. intros _. by exists [], rest.
    + destruct (strings.Contains line "Wrong password?") eqn:Hwp.
      * split; [done|]. intros (before & after & Heq & Hall).
        destruct before as [|b before]; simplify_eq/=.
        inversion Hall; subst. congruence.
      * rewrite IH. split.
        -- intros (before & after & -> & Hall).
           exists (line :: before), after. split; [done|]. by constructor.
        -- intros (before & after & Heq & Hall).
           destruct before as [|b before]; simplify_eq/=.
           inversion Hall; subst. by exists before, after.
Qed.

Lemma passwordVerdict_true_elem (lines : list string) :
  passwordVerdict lines = true → "Everything is Ok" ∈ lines.
Proof.
  intros (before & after & -> & _)%passwordVerdict_true_iff. set_solver.
Qed.

Lemma passwordVerdict_wrong_first (before after : list string) (l : string) :
  "Everything is Ok" ∉ before →
  strings.Contains l "Wrong password?" = true →
  passwordVerdict (before ++ l :: after) = false.
Proof.
  intros Hno Hwp. induction before as [|b before IH]; cbn [passwordVerdict app].
  - rewrite Hwp. by destruct (String.eqb l "Everything is Ok") eqn:He;
      [apply String.eqb_eq in He; subst|].
  - destruct (String.eqb_spec b "Everything is Ok") as [->|Hne]; [set_solver|].
    destruct (strings.Contains b "Wrong password?"); [done|].
    apply IH. set_solver.
Qed.

(** C3 as amended: [TestPassword] returns true exactly when the Type is
    non-empty, the handle is marked Encrypted, the tool exits with status
    zero, the scan of its output does not fail, and the output has a line
    "Everything is Ok" that no line containing "Wrong password?"
    precedes.  It returns false in every other case: an empty Type, a
    handle not marked Encrypted, a non-zero exit, a failed scan, no
    confirmation line, or a "Wrong password?" line before the first
    confirmation line.  The result is always a boolean. *)
Theorem TestPassword_verdict
    (run : engine) (f : TFile) (password data : string)
    (err serr : option error) (lines : list string) :
  run BINARY_NAME (testArgs password (File f)) = (data, err) →
  bufio.ScanLines data = (lines, serr) →
  let verdict := fst (TestPassword run f password) in
  (verdict = true ↔
     Type_ f ≠ "" ∧ Encrypted f = true ∧ err = None ∧ serr = None
     ∧ ∃ before after,
         lines = before ++ "Everything is Ok" :: after
         ∧ Forall (λ l, strings.Contains l "Wrong password?" = false) before)
  ∧ (verdict = true → "Everything is Ok" ∈ lines)
  ∧ (Type_ f = "" → verdict = false)
  ∧ (Encrypted f = false → verdict = false)
  ∧ (err ≠ None → verdict = false)
  ∧ (serr ≠ None → verdict = false)
  ∧ ("Everything is Ok" ∉ lines → verdict = false)
  ∧ (∀ before l after,
       lines = before ++ l :: after → "Everything is Ok" ∉ before →
       strings.Contains l "Wrong password?" = true → verdict = false).
Proof.
  intros Hrun Hscan verdict. unfold testArgs in Hrun.
  assert (Hv : verdict =
    if String.eqb (Type_ f) "" || negb (Encrypted f) then false
    else match err with
         | Some _ => false
         | None => match serr with
                   | Some _ => false
                   | None => passwordVerdict lines
                   end
         end).
  { subst verdict. unfold TestPassword.
    destruct (String.eqb (Type_ f) "" || negb (Encrypted f)); [done|].
    rewrite Hrun. destruct err; [done|]. rewrite Hscan. by destruct serr. }
  assert (Hiff : verdict = true ↔
     Type_ f ≠ "" ∧ Encrypted f = true ∧ err = None ∧ serr = None
     ∧ passwordVerdict lines = true).
  { rewrite Hv. destruct (String.eqb_spec (Type_ f) "") as [Hty|Hty]; cbn.
    { split; [done|]. by intros (? & _). }
    destruct (Encrypted f); cbn; [|split; [done|by intros (_ & ? & _)]].
    destruct err; [split; [done|by intros (_ & _ & ? & _)]|].
    destruct serr; [split; [done|by intros (_ & _ & _ & ? & _)]|].
    split; [by intros ?|by intros (_ & _ & _ & _ & ?)]. }
  split_and!.
  - by rewrite Hiff, passwordVerdict_true_iff.
  - intros (_ & _ & _ & _ & Hp)%Hiff. by apply passwordVerdict_true_elem.
  - intros Hty. rewrite Hv, Hty. done.
  - intros Hen. rewrite Hv, Hen. by rewrite orb_true_r.
  - intros He. apply not_true_is_false. intros (_ & _ & ? & _)%Hiff. done.
  - intros He. apply not_true_is_false. intros (_ & _ & _ & ? & _)%Hiff. done.
  - intros Hno. apply not_true_is_false.
    intros (_ & _ & _ & _ & Hp)%Hiff. by apply passwordVerdict_true_elem in Hp.
  - intros before l after -> Hno Hwp. apply not_true_is_false.
    intros (_ & _ & _ & _ & Hp)%Hiff.
    by rewrite passwordVerdict_wrong_first in Hp.
Qed.

(** ** The simple listing *)

Lemma keptByListing_refl (f : TFile) : keptByListing f f.
Proof. by unfold keptByListing. Qed.

Lemma keptByListing_trans (f g h : TFile) :
  keptByListing f g → keptByListing g h → keptByListing f h.
Proof.
  unfold keptByListing. intros (?&?&?&?&?&?) (?&?&?&?&?&?).
  split_and!; congruence.
Qed.

Lemma getListingStep_kept (st : TFile * Cursor.TCursor) (line : string) :
  keptByListing st.1
    match getListingStep st line with
    | Continue st' => st'.1
    | Return f _ => f
    end.
Proof.
  destruct st as [f c]. unfold getListingStep.
  repeat case_match; simplify_eq/=; by unfold keptByListing.
Qed.

Lemma getListingLoop_kept (lines : list string) (st : TFile * Cursor.TCursor) :
  keptByListing st.1
    match getListingLoop st lines with
    | Continue st' => st'.1
    | Return f _ => f
    end.
Proof.
  revert st. induction lines as [|line rest IH]; intros st; cbn [getListingLoop].
  - apply keptByListing_refl.
  - pose proof (getListingStep_kept st line) as Hs.
    destruct (getListingStep st line) as [st'|f e]; [|done].
    eapply keptByListing_trans; [exact Hs | apply IH].
Qed.

Lemma getListing_kept (run : engine) (f : TFile) :
  keptByListing f (getListing run f).1.
Proof.
  unfold getListing.
  destruct (run _ _) as [data [e|]]; [by unfold keptByListing|].
  destruct (bufio.ScanLines data) as [lines [e|]]; [apply keptByListing_refl|].
  pose proof (getListingLoop_kept lines (f, Cursor.Start Cursor.zero)) as Hk.
  by destruct (getListingLoop _ lines) as [[f' c]|f' e].
Qed.

(** ** Extraction *)

Lemma hasOkLine_elem (lines : list string) :
  hasOkLine lines = true ↔ "Everything is Ok" ∈ lines.
Proof.
  induction lines as [|line rest IH]; cbn [hasOkLine].
  - split; [done|]. by intros ?%elem_of_nil.
  - destruct (String.eqb_spec line "Everything is Ok") as [->|Hne].
    + split; [|done]. intros _. apply list_elem_of_here.
    + rewrite IH. split; [intros ?; by apply list_elem_of_further|].
      by intros [?|?]%elem_of_cons.
Qed.

(** C4 as amended: when the scan of the captured output does not fail,
    extraction succeeds exactly when the output has the line
    "Everything is Ok", whatever the exit status of the tool was, and
    without that line it returns an error whose text is the whole
    captured output; when the scan fails the call does not return at all:
    [log.Fatal] ends the process. *)
Theorem ExtractWithPassword_outcome
    (run : engine) (f : TFile) (folder password data : string)
    (err serr : option error) (lines : list string) :
  run BINARY_NAME (extractArgs password folder (File f)) = (data, err) →
  bufio.ScanLines data = (lines, serr) →
  let outcome := fst (ExtractWithPassword run f folder password) in
  match serr with
  | None =>
      (outcome = Returned None ↔ "Everything is Ok" ∈ lines)
      ∧ ("Everything is Ok" ∉ lines →
           outcome = Returned (Some (errors.New data)))
  | Some e => outcome = Fatal e
  end.
Proof.
  intros Hrun Hscan outcome. unfold extractArgs in Hrun.
  subst outcome. unfold ExtractWithPassword. rewrite Hrun, Hscan.
  destruct serr as [e|]; [done|].
  destruct (hasOkLine lines) eqn:Hok; cbn.
  - apply hasOkLine_elem in Hok. by split.
  - split.
    + split; [done|]. intros Hin%hasOkLine_elem. congruence.
    + done.
Qed.

(** ** The Password field *)

(** C6 as amended: no operation of the package writes the Password field;
    after [TestPassword] (whatever it returns), [ExtractWithPassword],
    [ExtractTo], [getListing] and [getInfo] the field has the value it
    had before, and a handle returned by [Open] has the empty password. *)
Theorem Password_never_written
    (run : engine) (f : TFile) (file folder password : string) :
  Password (TestPassword run f password).2 = Password f
  ∧ Password (ExtractWithPassword run f folder password).2 = Password f
  ∧ Password (ExtractTo run f folder).2 = Password f
  ∧ Password (getListing run f).1 = Password f
  ∧ Password (getInfo run f file).1 = Password f
  ∧ Password (Open run file).1 = "".
Proof.
  assert (Hx : ∀ pw, Password (ExtractWithPassword run f folder pw).2 = Password f).
  { intros pw. unfold ExtractWithPassword.
    destruct (run _ _) as [data e].
    destruct (bufio.ScanLines data) as [lines [e'|]]; [done|].
    by destruct (hasOkLine lines). }
  assert (Hl : ∀ g, Password (getListing run g).1 = Password g).
  { intros g. by destruct (getListing_kept run g) as (_&_&_&_&_&?). }
  assert (Hi : ∀ g, Password (getInfo run g file).1 = Password g).
  { intros g. unfold getInfo.
    destruct (run _ _) as [data [e|]]; [done|].
    destruct (bufio.ScanLines data) as [lines [e|]]; [done|].
    destruct (getInfoLoop_frame lines (getInfoStart (setFile g file)))
      as (_ & Hp & _).
    destruct (getInfoLoop _ lines) as [st|f' e]; cbn in *; [|done].
    by rewrite Hl. }
  split_and!; try done.
  - unfold TestPassword.
    destruct (String.eqb (Type_ f) "" || negb (Encrypted f)); [done|].
    destruct (run _ _) as [data [e|]]; [done|].
    by destruct (bufio.ScanLines data) as [lines [e|]].
  - apply Hx.
  - unfold Open. by rewrite Hi.
Qed.

(** ** Facts about the string functions *)

Lemma HasPrefix_cons (a b : ascii) (p s : string) :
  strings.HasPrefix (String b s) (String a p)
  = if Ascii.eqb a b then strings.HasPrefix s p else false.
Proof. reflexivity. Qed.

Lemma HasPrefix_split (p s : string) :
  strings.HasPrefix s p = true → s = p +:+ strings.drop (String.length p) s.
Proof.
  revert s. induction p as [|a p IH]; intros s; [done|].
  destruct s as [|b s]; [done|]. rewrite HasPrefix_cons.
  destruct (Ascii.eqb_spec a b) as [->|]; [|done].
  intros H.
  change (String b s = String b (p +:+ strings.drop (String.length p) s)).
  f_equal. by apply IH.
Qed.

Lemma replaceFrom_absent (s old new : string) :
  strings.Contains s old = false → strings.replaceFrom 0 s old new = s.
Proof.
  induction s as [|c s IH]; [done|].
  change (strings.Contains (String c s) old)
    with (if strings.HasPrefix (String c s) old then true
          else strings.Contains s old).
  cbn [strings.replaceFrom].
  destruct (strings.HasPrefix (String c s) old); [done|].
  intros H. f_equal. by apply IH.
Qed.

Lemma Type_line_shape (l : string) :
  strings.HasPrefix l "Type = " = true →
  ∃ r, l = "Type = " +:+ r
     ∧ strings.Cut l " = " = Some ("Type", r)
     ∧ strings.ReplaceAll l "Type = " "" = strings.ReplaceAll r "Type = " "".
Proof.
  intros H. apply HasPrefix_split in H.
  remember (strings.drop (String.length "Type = ") l) as r eqn:Hr.
  clear Hr. subst l. exists r. split_and!; reflexivity.
Qed.

(** The header-phase step at a line that begins with "Type = ": the Type
    becomes the rest of the line with every further instance of
    "Type = " removed; it is the rest of the line when that has no such
    instance. *)
Lemma header_type_step (st : loopState) (r : string) :
  inHeader (lcursor st) →
  let f := handleOf (getInfoStep st ("Type = " +:+ r)) in
  Type_ f = strings.ReplaceAll r "Type = " ""
  ∧ (strings.Contains r "Type = " = false → Type_ f = r).
Proof.
  intros [Hp Hh] f.
  assert (Hty : Type_ f = strings.ReplaceAll r "Type = " "").
  { subst f. unfold getInfoStep. rewrite Hp, Hh. by cbn. }
  split; [done|]. intros Hc. rewrite Hty. by apply replaceFrom_absent.
Qed.

(** C7, at the header line "Type = aType = b": the rest of the line after
    the prefix is "aType = b" and that is what the Header mapping records
    under "Type", but the Type of the handle is "ab". *)
Theorem type_strips_every_marker :
  let run := scripted (sampleNestedType, None) ("", None) noRun noRun in
  let f := (Open run "a.zip").1 in
  bufio.ScanLines sampleNestedType
    = (["--"; "Type = aType = b"; "----------"], None)
  ∧ strings.drop 7 "Type = aType = b" = "aType = b"
  ∧ Type_ f = "ab"
  ∧ (HData <$> Header f) ≫= (λ m, m !! "Type") = Some "aType = b"
  ∧ (Open run "a.zip").2 = None.
Proof. by vm_compute. Qed.

(** ** The header block and the entry stanzas *)

Lemma addKey_headerPair (h : THeader) (l : string) :
  THeader_.addKey h l =
    match headerPair l with
    | Some (k, v) => mkTHeader (<[k := v]> (HData h))
    | None => h
    end.
Proof.
  unfold THeader_.addKey, headerPair.
  by destruct (strings.Cut l " = ") as [[k v]|].
Qed.

Lemma header_line_step (st : loopState) (l : string) (h : THeader) :
  inHeader (lcursor st) → Header (lf st) = Some h → l ≠ "----------" →
  ∃ f, getInfoStep st l = Continue (mkLoop f (lentry st) (lcursor st))
     ∧ Entries f = Entries (lf st)
     ∧ Header f = Some (THeader_.addKey h l)
     ∧ Type_ f = (if strings.HasPrefix l "Type = "
                  then strings.ReplaceAll l "Type = " ""
                  else Type_ (lf st)).
Proof.
  intros [Hp Hh] Hhd Hne. unfold getInfoStep. rewrite Hp, Hh.
  destruct (String.eqb_spec l "") as [->|Hnb]; cbn [negb].
  - exists (lf st). by destruct st.
  - apply String.eqb_neq in Hne. rewrite Hne.
    eexists. split; [reflexivity|].
    destruct (strings.HasPrefix l "Type = "),
             (strings.HasPrefix l "Encrypted = "); cbn; by rewrite Hhd.
Qed.

Lemma header_loop (hdr : list string) (st : loopState) (h : THeader) :
  inHeader (lcursor st) → Header (lf st) = Some h →
  Forall headerLineZip hdr →
  ∃ st', getInfoLoop st hdr = Continue st'
       ∧ lcursor st' = lcursor st
       ∧ lentry st' = lentry st
       ∧ Entries (lf st') = Entries (lf st)
       ∧ Header (lf st') = Some (foldl THeader_.addKey h hdr)
       ∧ (Type_ (lf st') = Type_ (lf st) ∨ Type_ (lf st') = "Zip")
       ∧ ("Type = Zip" ∈ hdr → Type_ (lf st') = "Zip").
Proof.
  revert st h. induction hdr as [|l rest IH]; intros st h Hin Hhd Hall.
  - exists st. split_and!; try done; [by left|by intros ?%elem_of_nil].
  - inversion Hall as [|? ? [Hne Hkeys] Hrest]; subst.
    destruct (header_line_step st l h Hin Hhd Hne) as (f & Hs & He & Hh & Hty).
    cbn [getInfoLoop]. rewrite Hs.
    edestruct (IH (mkLoop f (lentry st) (lcursor st)))
      as (st' & -> & Hc & Hle & Hen & Hhdr & Hkeep & Hzip);
      [exact Hin|exact Hh|exact Hrest|].
    cbn in *.
    assert (Hstep : Type_ f = Type_ (lf st) ∨ Type_ f = "Zip").
    { rewrite Hty. destruct (strings.HasPrefix l "Type = ") eqn:Hpre; [|by left].
      right. destruct (Type_line_shape l Hpre) as (r & -> & Hcut & Hrep).
      assert (r = "Zip") as ->; [|done].
      apply (proj1 Hkeys r). unfold headerPair. by rewrite Hcut. }
    exists st'. split_and!; try done; try congruence.
    + destruct Hkeep as [-> | ->]; [done|by right].
    + intros [<-|Hrest']%elem_of_cons.
      * destruct Hkeep as [-> | ->]; [|done]. by rewrite Hty.
      * by apply Hzip.
Qed.

Lemma header_fold_lookup (hdr : list string) (h : THeader) (k v : string) :
  Forall (λ l, ∀ v', headerPair l = Some (k, v') → v' = v) hdr →
  HData h !! k = Some v ∨ (∃ l, l ∈ hdr ∧ headerPair l = Some (k, v)) →
  HData (foldl THeader_.addKey h hdr) !! k = Some v.
Proof.
  revert h. induction hdr as [|l rest IH]; intros h Hall Hsrc; cbn [foldl].
  - destruct Hsrc as [?|(l & []%elem_of_nil & _)]. done.
  - inversion Hall as [|? ? Hl Hrest]; subst. apply IH; [done|].
    rewrite addKey_headerPair.
    destruct Hsrc as [Hh|(l0 & [->|Hin]%elem_of_cons & Hp)].
    + left. destruct (headerPair l) as [[k' v']|] eqn:Hp; [|done]. cbn.
      destruct (decide (k' = k)) as [->|Hk].
      * rewrite (Hl v' eq_refl). apply lookup_insert_eq.
      * by rewrite lookup_insert_ne.
    + left. rewrite Hp. cbn. apply lookup_insert_eq.
    + right. eauto.
Qed.

Lemma addKey_stanzaPairs (stanza : list string) (e : TEntry) :
  EData (foldl TEntry_.addKey e stanza)
  = foldl (λ m p, <[p.1 := p.2]> m) (EData e) (stanzaPairs stanza).
Proof.
  revert e. induction stanza as [|l rest IH]; intros e; [done|].
  cbn [foldl]. rewrite IH. unfold stanzaPairs. cbn [omap list_omap].
  unfold TEntry_.addKey. by destruct (strings.Cut l " = ") as [[k v]|].
Qed.

Lemma foldl_insert_list_to_map (ps : list (string * string)) :
  foldl (λ (m : gmap string string) p, <[p.1 := p.2]> m) ∅ ps
  = list_to_map (reverse ps).
Proof.
  induction ps as [|[k v] ps IH] using rev_ind; [done|].
  rewrite foldl_app, reverse_app. cbn. by rewrite IH.
Qed.

Lemma stanza_entry_pairs (stanza : list string) :
  let e := foldl TEntry_.addKey newEntry stanza in
  EData e = list_to_map (reverse (stanzaPairs stanza))
  ∧ (NoDup (stanzaPairs stanza).*1 →
     ∀ k v, EData e !! k = Some v ↔ (k, v) ∈ stanzaPairs stanza).
Proof.
  intros e. assert (He : EData e = list_to_map (reverse (stanzaPairs stanza))).
  { subst e. by rewrite addKey_stanzaPairs, <- foldl_insert_list_to_map. }
  split; [done|]. intros Hnd k v. rewrite He.
  rewrite <- elem_of_list_to_map.
  - by rewrite elem_of_reverse.
  - by rewrite fmap_reverse, reverse_Permutation.
Qed.

Lemma preamble_delimiter_step (st : loopState) :
  inPreamble (lcursor st) →
  getInfoStep st "--" =
    Continue (mkLoop (lf st) (lentry st) (Cursor.mkTCursor false true false)).
Proof.
  unfold inPreamble. intros Hp. unfold getInfoStep, Cursor.Next. by rewrite Hp.
Qed.

(** C2: for a detailed listing made of preamble lines, the line "--", a
    header block that has the lines "Type = Zip" and "Encrypted = -" (and
    no other value for these two keys), the delimiter "----------" and
    two stanzas of non-blank lines each followed by a blank line, the
    handle [Open] returns has a Header mapping with Type ↦ Zip and
    Encrypted ↦ -, and two entries, in stanza order, each holding the
    key/value pairs of the " = "-separated lines of its stanza (a later
    line of a stanza overriding an earlier one with the same key). *)
Theorem open_zip_two_stanzas
    (run : engine) (file data : string) (pre hdr s1 s2 : list string) :
  run BINARY_NAME (detailedArgs file) = (data, None) →
  bufio.ScanLines data
    = (pre ++ "--" :: hdr ++ "----------" :: s1 ++ "" :: s2 ++ [""], None) →
  Forall preambleLine pre →
  Forall headerLineZip hdr →
  "Type = Zip" ∈ hdr →
  "Encrypted = -" ∈ hdr →
  Forall (λ l, l ≠ "") s1 →
  Forall (λ l, l ≠ "") s2 →
  let f := (Open run file).1 in
  ∃ h e1 e2,
    Header f = Some h
    ∧ HData h !! "Type" = Some "Zip"
    ∧ HData h !! "Encrypted" = Some "-"
    ∧ Type_ f = "Zip"
    ∧ Entries f = [e1; e2]
    ∧ EData e1 = list_to_map (reverse (stanzaPairs s1))
    ∧ EData e2 = list_to_map (reverse (stanzaPairs s2))
    ∧ (NoDup (stanzaPairs s1).*1 →
       ∀ k v, EData e1 !! k = Some v ↔ (k, v) ∈ stanzaPairs s1)
    ∧ (NoDup (stanzaPairs s2).*1 →
       ∀ k v, EData e2 !! k = Some v ↔ (k, v) ∈ stanzaPairs s2).
Proof.
  intros Hrun Hscan Hpre Hhdr HtyIn HencIn Hs1 Hs2 f.
  set (st0 := getInfoStart (setFile zeroTFile file)).
  assert (Hloop : ∃ st,
    getInfoLoop st0
      (pre ++ "--" :: hdr ++ "----------" :: s1 ++ "" :: s2 ++ [""])
    = Continue st
    ∧ Header (lf st) = Some (foldl THeader_.addKey newHeader hdr)
    ∧ Type_ (lf st) = "Zip"
    ∧ Entries (lf st) = [foldl TEntry_.addKey newEntry s1;
                         foldl TEntry_.addKey newEntry s2]).
  { rewrite getInfoLoop_app, preamble_loop by done.
    cbn [getInfoLoop]. rewrite preamble_delimiter_step by done.
    rewrite getInfoLoop_app.
    edestruct (header_loop hdr) as (st2 & -> & Hc2 & He2 & Hn2 & Hh2 & _ & Ht2);
      [| |exact Hhdr|]; [done|reflexivity|].
    specialize (Ht2 HtyIn). cbn in Hc2, He2, Hn2.
    assert (Hin2 : inHeader (lcursor st2)) by (by rewrite Hc2).
    cbn [getInfoLoop]. rewrite (header_delimiter_step _ Hin2), Ht2.
    change (String.eqb "Zip" "") with false. cbv iota.
    rewrite getInfoLoop_app.
    edestruct (entries_loop_stanza s1) as (st4 & -> & Hc4 & Hn4 & He4 & Hh4 & Ht4);
      [|exact Hs1|]; [done|].
    cbn in Hc4, Hn4, He4, Hh4, Ht4.
    assert (Hin4 : inEntries (lcursor st4)) by (by rewrite Hc4).
    cbn [getInfoLoop]. rewrite (blank_line_step _ Hin4), getInfoLoop_app.
    edestruct (entries_loop_stanza s2) as (st6 & -> & Hc6 & Hn6 & He6 & Hh6 & Ht6);
      [|exact Hs2|]; [exact Hin4|].
    cbn in Hc6, Hn6, He6, Hh6, Ht6.
    assert (Hin6 : inEntries (lcursor st6)) by (by rewrite Hc6).
    cbn [getInfoLoop]. rewrite (blank_line_step _ Hin6).
    eexists. split; [reflexivity|]. cbn.
    split_and!; try congruence.
    by rewrite Hn6, Hn4, Hn2, He6, He4, He2. }
  destruct Hloop as (st & Hl & Hh & Ht & He).
  assert (Hf : keptByListing (lf st) f).
  { subst f. rewrite (Open_parsed _ _ _ _ Hrun Hscan). fold st0. rewrite Hl.
    apply getListing_kept. }
  destruct Hf as (_ & HfT & HfH & HfE & _).
  exists (foldl THeader_.addKey newHeader hdr),
         (foldl TEntry_.addKey newEntry s1), (foldl TEntry_.addKey newEntry s2).
  split_and!; try congruence.
  - apply header_fold_lookup.
    + eapply Forall_impl; [exact Hhdr|]. intros l (_ & Hk & _) v'. apply Hk.
    + right. by exists "Type = Zip".
  - apply header_fold_lookup.
    + eapply Forall_impl; [exact Hhdr|]. intros l (_ & _ & Hk) v'. apply Hk.
    + right. by exists "Encrypted = -".
  - apply stanza_entry_pairs.
  - apply stanza_entry_pairs.
  - apply stanza_entry_pairs.
  - apply stanza_entry_pairs.
Qed.

(** ** The statements on sample outputs of the tool *)

(** The cursor after one advance: in the header phase, and the next
    advance takes it to the entries phase. *)
Lemma cursor_one_phase_forward_witness :
  exactlyOne (advanced 1 Cursor.zero) = true
  ∧ Cursor.Next (advanced 1 Cursor.zero) = Cursor.mkTCursor false false true
  ∧ phaseRank (advanced 1 Cursor.zero) ≤ phaseRank (advanced 5 Cursor.zero).
Proof.
  destruct (cursor_one_phase_forward 1 Cursor.zero)
    as (H1 & _ & _ & H4 & _ & _ & _ & H8).
  split_and!; [exact H1 | apply H4; reflexivity | apply H8; lia].
Defined.

(** A listing whose header block has no Type line. *)
Lemma open_fails_without_type_witness :
  ∃ f, Open (scripted (sampleNoType, None) noRun noRun noRun) "a.bin"
       = (f, Some (errors.New "not supported? error: no Type found"))
     ∧ Entries f = [] ∧ Type_ f = "".
Proof.
  eapply (open_fails_without_type _ "a.bin" sampleNoType
            ["7-Zip (z) 23.01"; "--"; "Path = a.bin"; ""] ["Path = x.txt"; ""]).
  - reflexivity.
  - reflexivity.
  - vm_compute. reflexivity.
  - split; reflexivity.
  - reflexivity.
Defined.

(** The entries phase after the header block of a Zip archive. *)
Lemma entries_appended_at_blank_lines_witness :
  let run ls :=
    getInfoLoop (getInfoStart (setFile zeroTFile "a.zip"))
      (["7-Zip"; "--"; "Type = Zip"] ++ "----------" :: ls) in
  (∀ ls, ∃ st, run ls = Continue st ∧ length (Entries (lf st)) = blankCount ls)
  ∧ (∀ ls, Entries (handleOf (run (ls ++ ["Path = x"; "Size = 1"])))
           = Entries (handleOf (run ls)))
  ∧ (∀ ls, ∃ e, Entries (handleOf (run (ls ++ [""])))
                = Entries (handleOf (run ls)) ++ [e])
  ∧ Entries (handleOf (run (replicate 2 ""))) = replicate 2 newEntry
  ∧ (∀ ls, Entries (handleOf (run (ls ++ replicate 3 "")))
           = Entries (handleOf (run (ls ++ [""]))) ++ replicate 2 newEntry).
Proof.
  eapply (entries_appended_at_blank_lines (setFile zeroTFile "a.zip")
            ["7-Zip"; "--"; "Type = Zip"] ["Path = x"; "Size = 1"] _ 2).
  - reflexivity.
  - vm_compute. reflexivity.
  - split; reflexivity.
  - discriminate.
  - repeat constructor; discriminate.
Defined.

(** The listing of an archive with encrypted headers. *)
Lemma open_encrypted_sentinel_witness :
  Open (scripted (sampleEncrypted, None) noRun noRun noRun) "a.7z"
  = (mkTFile "a.7z" "encrypted archive" "" (Some newHeader) [] true "" "", None).
Proof.
  apply (open_encrypted_sentinel _ "a.7z" sampleEncrypted
           "ERROR: a.7z : Can not open encrypted archive. Wrong password?"
           ["7-Zip (z) 23.01"; ""] []).
  - reflexivity.
  - reflexivity.
  - repeat constructor; discriminate.
  - reflexivity.
  - reflexivity.
Defined.

(** C1 as stated fails: the preamble has a line that begins with "ERROR:"
    and contains "encrypted archive", but an "ERROR:" line without it comes
    first, and [Open] fails with that first line as its error. *)
Lemma sentinel_after_other_error_counterexample :
  let run := scripted (sampleTwoErrors, None) noRun noRun noRun in
  let first := "ERROR: a.7z : Unsupported Method" in
  let second := "ERROR: a.7z : Can not open encrypted archive. Wrong password?" in
  run BINARY_NAME (detailedArgs "a.7z") = (sampleTwoErrors, None)
  ∧ bufio.ScanLines sampleTwoErrors = ([first; second], None)
  ∧ first ≠ "--"
  ∧ strings.HasPrefix second "ERROR:" = true
  ∧ strings.Contains second "encrypted archive" = true
  ∧ Open run "a.7z"
    = (mkTFile "a.7z" "" "" (Some newHeader) [] false "" "",
       Some (errors.New first)).
Proof. split_and!; (reflexivity || discriminate). Qed.

(** Two stand-ins for the tool that differ only in the test and extract
    invocations. *)
Lemma Open_deterministic_witness :
  Open zipRun "a.zip"
  = Open (scripted (sampleZip, None) (sampleListing, None)
            (sampleTestOk, None) ("", Some (ExitError 1))) "a.zip".
Proof. apply Open_deterministic; reflexivity. Defined.

(** A test run that ends with the confirmation line. *)
Lemma TestPassword_verdict_witness :
  (TestPassword (scripted noRun noRun (sampleTestOk, None) noRun)
     sampleHandle "secret").1 = true.
Proof.
  eapply (TestPassword_verdict _ sampleHandle "secret" sampleTestOk None None
            ["7-Zip (z) 23.01"; ""; "Everything is Ok"]).
  - reflexivity.
  - reflexivity.
  - split_and!; try done.
    exists ["7-Zip (z) 23.01"; ""], []. split; [done|].
    repeat constructor.
Defined.

(** C3 as stated fails: the output has a line containing
    "Wrong password?", yet [TestPassword] returns true, because the
    confirmation line comes first. *)
Lemma wrong_password_after_ok_counterexample :
  let run := scripted noRun noRun (sampleOkThenWrong, None) noRun in
  bufio.ScanLines sampleOkThenWrong
    = (["Everything is Ok"; "ERROR: Wrong password? : b.7z"], None)
  ∧ strings.Contains "ERROR: Wrong password? : b.7z" "Wrong password?" = true
  ∧ (TestPassword run sampleHandle "secret").1 = true.
Proof. split_and!; reflexivity. Qed.

(** An extraction whose output has the confirmation line while the tool
    exits with status 2. *)
Lemma ExtractWithPassword_outcome_witness :
  (ExtractWithPassword
     (scripted noRun noRun noRun (sampleTestOk, Some (ExitError 2)))
     sampleHandle "out" "secret").1 = Returned None.
Proof.
  pose proof (ExtractWithPassword_outcome
    (scripted noRun noRun noRun (sampleTestOk, Some (ExitError 2)))
    sampleHandle "out" "secret" sampleTestOk (Some (ExitError 2)) None
    ["7-Zip (z) 23.01"; ""; "Everything is Ok"] eq_refl eq_refl) as [H _].
  apply H. do 2 apply list_elem_of_further. apply list_elem_of_here.
Defined.

(** C4 as stated fails: with a line of 65536 bytes in the output the scan
    fails and [log.Fatal] ends the process, whether the output has the
    line "Everything is Ok" (first output) or not (second output). *)
Lemma extract_long_line_counterexample :
  let run := scripted noRun noRun noRun (sampleOkThenLong, None) in
  let run' := scripted noRun noRun noRun (longLine, None) in
  (ExtractWithPassword run sampleHandle "out" "").1 = Fatal ErrTooLong
  ∧ (ExtractWithPassword run' sampleHandle "out" "").1 = Fatal ErrTooLong.
Proof. split_and!; vm_compute; reflexivity. Qed.

(** C6 as stated fails: [TestPassword] returns true for the password
    "secret" and the Password field of the handle is still empty. *)
Lemma password_not_recorded_counterexample :
  let run := scripted noRun noRun (sampleTestOk, None) noRun in
  (TestPassword run sampleHandle "secret").1 = true
  ∧ Password (TestPassword run sampleHandle "secret").2 = ""
  ∧ Password (TestPassword run sampleHandle "secret").2 ≠ "secret".
Proof. split_and!; (reflexivity || discriminate). Qed.

(** Checks [headerLineZip] on a given line. *)
Ltac header_line_ok :=
  split_and!; [discriminate | intros v Hv; vm_compute in Hv; congruence ..].

(** The listing of a Zip archive with two members. *)
Lemma open_zip_two_stanzas_witness :
  ∃ h e1 e2,
    Header (Open zipRun "a.zip").1 = Some h
    ∧ HData h !! "Type" = Some "Zip"
    ∧ HData h !! "Encrypted" = Some "-"
    ∧ Type_ (Open zipRun "a.zip").1 = "Zip"
    ∧ Entries (Open zipRun "a.zip").1 = [e1; e2]
    ∧ EData e1 !! "Path" = Some "x.txt"
    ∧ EData e2 !! "Size" = Some "2".
Proof.
  destruct (open_zip_two_stanzas zipRun "a.zip" sampleZip
              ["7-Zip (z) 23.01"; ""; "Listing archive: a.zip"; ""]
              ["Path = a.zip"; "Type = Zip"; "Encrypted = -";
               "Physical Size = 310"; ""]
              ["Path = x.txt"; "Size = 1"; "Encrypted = -"]
              ["Path = y.txt"; "Size = 2"; "Encrypted = -"])
    as (h & e1 & e2 & Hh & Hty & Henc & Ht & He & _ & _ & H1 & H2).
  - reflexivity.
  - reflexivity.
  - repeat constructor; discriminate.
  - repeat (constructor; [header_line_ok|]). constructor.
  - apply list_elem_of_further, list_elem_of_here.
  - do 2 apply list_elem_of_further. apply list_elem_of_here.
  - repeat constructor; discriminate.
  - repeat constructor; discriminate.
  - exists h, e1, e2.
    refine (conj Hh (conj Hty (conj Henc (conj Ht (conj He (conj _ _)))))).
    + apply H1; [apply (bool_decide_unpack _); vm_compute; exact I|].
      vm_compute. apply list_elem_of_here.
    + apply H2; [apply (bool_decide_unpack _); vm_compute; exact I|].
      vm_compute. apply list_elem_of_further, list_elem_of_here.
Defined.

(** ** Further properties of the package *)

(** *** [Open]: the failures before and in the preamble *)

(** X1: when the first preamble line that begins with "ERROR:" does not
    contain "encrypted archive", [Open] fails with exactly that line as
    the error text; the handle has no Type, no entries and no listing,
    and the simple listing is not run. *)
Theorem open_unrecognised_error
    (run : engine) (file data l : string) (pre rest : list string) :
  run BINARY_NAME (detailedArgs file) = (data, None) →
  bufio.ScanLines data = (pre ++ l :: rest, None) →
  Forall preambleLine pre →
  strings.HasPrefix l "ERROR:" = true →
  strings.Contains l "encrypted archive" = false →
  Open run file
  = (mkTFile file "" "" (Some newHeader) [] false "" "", Some (errors.New l)).
Proof.
  intros Hrun Hscan Hpre He Hc.
  rewrite (Open_parsed _ _ _ _ Hrun Hscan), getInfoLoop_app.
  rewrite preamble_loop by done.
  cbn [getInfoLoop]. rewrite preamble_error_step by done.
  by rewrite Hc.
Qed.

Lemma open_unrecognised_error_witness :
  Open (scripted (sampleUnsupported, None) noRun noRun noRun) "a.bin"
  = (mkTFile "a.bin" "" "" (Some newHeader) [] false "" "",
     Some (errors.New "ERROR: a.bin : Can not open the file as archive")).
Proof.
  apply (open_unrecognised_error _ "a.bin" sampleUnsupported
           "ERROR: a.bin : Can not open the file as archive"
           ["7-Zip (z) 23.01"; ""] []).
  - reflexivity.
  - reflexivity.
  - repeat constructor; discriminate.
  - reflexivity.
  - reflexivity.
Defined.

(** X2: the Header pointer of the handle [Open] returns is nil exactly
    when the detailed listing could not be obtained: the tool failed, or
    the scan of its output failed.  In the first case the output is kept
    in ErrorState; in both, nothing else of the handle but File is set. *)
Theorem open_header_nil_iff
    (run : engine) (file data : string) (err serr : option error)
    (lines : list string) :
  run BINARY_NAME (detailedArgs file) = (data, err) →
  bufio.ScanLines data = (lines, serr) →
  let f := (Open run file).1 in
  (Header f = None ↔ err ≠ None ∨ serr ≠ None)
  ∧ (∀ e, err = Some e →
       Open run file = (mkTFile file "" "" None [] false "" data, Some e))
  ∧ (∀ e, err = None → serr = Some e →
       Open run file = (mkTFile file "" "" None [] false "" "", Some e)).
Proof.
  intros Hrun Hscan f. unfold detailedArgs in Hrun.
  assert (Hopen : Open run file =
    match err with
    | Some e => (mkTFile file "" "" None [] false "" data, Some e)
    | None =>
        match serr with
        | Some e => (mkTFile file "" "" None [] false "" "", Some e)
        | None =>
            match getInfoLoop (getInfoStart (setFile zeroTFile file)) lines with
            | Return f' e => (f', e)
            | Continue st => getListing run (lf st)
            end
        end
    end).
  { unfold Open, getInfo. cbn [File setFile]. rewrite Hrun.
    destruct err; [done|]. rewrite Hscan. by destruct serr. }
  split_and!.
  - subst f. rewrite Hopen. destruct err as [e|].
    { split; [by left|done]. }
    destruct serr as [e|].
    { split; [by right|done]. }
    split; [|by intros [?|?]]. intros Hnil. exfalso.
    destruct (getInfoLoop_frame lines (getInfoStart (setFile zeroTFile file)))
      as (_ & _ & _ & _ & Hsome).
    specialize (Hsome (ltac:(by eexists))).
    destruct (getInfoLoop _ lines) as [st|f' e]; cbn in *.
    + destruct (getListing_kept run (lf st)) as (_ & _ & Hh & _).
      rewrite Hh in Hnil. rewrite Hnil in Hsome. by destruct Hsome.
    + rewrite Hnil in Hsome. by destruct Hsome.
  - intros e ->. exact Hopen.
  - intros e -> ->. exact Hopen.
Qed.

Lemma open_header_nil_iff_witness :
  Header (Open (scripted ("cannot run", Some (ExitError 2)) noRun noRun noRun)
            "a.zip").1 = None.
Proof.
  apply (open_header_nil_iff _ "a.zip" "cannot run" (Some (ExitError 2)) None
           ["cannot run"] eq_refl eq_refl).
  by left.
Defined.

(** *** The simple listing *)

Lemma append_cons (x : ascii) (a b : string) :
  String x a +:+ b = String x (a +:+ b).
Proof. reflexivity. Qed.

Lemma append_assoc (a b c : string) : (a +:+ b) +:+ c = a +:+ b +:+ c.
Proof. induction a as [|x a IH]; [done|]. by rewrite !append_cons, IH. Qed.

Lemma append_nil_r (a : string) : a +:+ "" = a.
Proof. induction a as [|x a IH]; [done|]. by rewrite append_cons, IH. Qed.

Lemma listing_preamble_loop (pre : list string) (f : TFile) (c : Cursor.TCursor) :
  Cursor.Preamble c = true → Forall preambleLine pre →
  getListingLoop (f, c) pre = Continue (f, c).
Proof.
  intros Hp Hall. induction Hall as [|line rest [He Hd] _ IH]; [done|].
  cbn [getListingLoop getListingStep]. rewrite Hp, He.
  apply String.eqb_neq in Hd. by rewrite Hd.
Qed.

Lemma listing_body_loop (ls : list string) (f : TFile) (c : Cursor.TCursor) :
  Cursor.Preamble c = false →
  ∃ c', getListingLoop (f, c) ls
        = Continue (setListing f (Listing f +:+ unlines ls), c')
      ∧ Cursor.Preamble c' = false.
Proof.
  revert f c. induction ls as [|line rest IH]; intros f c Hp.
  - exists c. cbn. rewrite append_nil_r. by destruct f.
  - cbn [getListingLoop getListingStep]. rewrite Hp.
    assert (Hnext : ∀ c0, Cursor.Preamble c0 = false →
      ∃ c', getListingLoop (setListing f (Listing f +:+ line +:+ nl), c0) rest
            = Continue (setListing f (Listing f +:+ unlines (line :: rest)), c')
          ∧ Cursor.Preamble c' = false).
    { intros c0 Hc0. destruct (IH (setListing f (Listing f +:+ line +:+ nl)) c0 Hc0)
        as (c' & -> & Hc'). exists c'. split; [|done].
      change (setListing (setListing f (Listing f +:+ line +:+ nl))
                (Listing (setListing f (Listing f +:+ line +:+ nl))
                 +:+ unlines rest))
        with (setListing f ((Listing f +:+ line +:+ nl) +:+ unlines rest)).
      change (unlines (line :: rest)) with (line +:+ nl +:+ unlines rest).
      by rewrite (append_assoc (Listing f) (line +:+ nl)), (append_assoc line nl). }
    destruct (Cursor.Header c) eqn:Hh; [|by apply Hnext].
    destruct (String.eqb line ""); apply Hnext; [|done].
    unfold Cursor.Next. by rewrite Hp, Hh.
Qed.

(** X3: the listing text.  When the simple listing has the line "--"
    after preamble lines, [getListing] appends to Listing every line
    after the first "--", blank or not, each followed by a newline, and
    changes nothing else. *)
Theorem getListing_text
    (run : engine) (f : TFile) (data : string) (pre rest : list string) :
  run BINARY_NAME (simpleArgs (File f)) = (data, None) →
  bufio.ScanLines data = (pre ++ "--" :: rest, None) →
  Forall preambleLine pre →
  getListing run f = (setListing f (Listing f +:+ unlines rest), None).
Proof.
  unfold simpleArgs. intros Hrun Hscan Hpre.
  unfold getListing. rewrite Hrun, Hscan. clear Hscan.
  assert (Hloop : ∃ c',
    getListingLoop (f, Cursor.Start Cursor.zero) (pre ++ "--" :: rest)
    = Continue (setListing f (Listing f +:+ unlines rest), c')).
  { revert Hpre. generalize (Cursor.Start Cursor.zero) (eq_refl :
      Cursor.Preamble (Cursor.Start Cursor.zero) = true).
    intros c Hc Hpre. induction Hpre as [|line more [He Hd] _ IH].
    - cbn [app getListingLoop getListingStep]. rewrite Hc.
      change (strings.HasPrefix "--" "ERROR:") with false.
      change (String.eqb "--" "--") with true. cbv iota.
      destruct (listing_body_loop rest f (Cursor.Next c)) as (c' & -> & _).
      + unfold Cursor.Next. by rewrite Hc.
      + by exists c'.
    - cbn [app getListingLoop getListingStep]. rewrite Hc, He.
      apply String.eqb_neq in Hd. rewrite Hd. exact IH. }
  destruct Hloop as (c' & ->). done.
Qed.

Lemma getListing_text_witness :
  getListing zipRun (setFile zeroTFile "a.zip")
  = (setListing (setFile zeroTFile "a.zip")
       (unlines ["Path = a.zip"; "Type = zip"; "";
                 "   Date      Time    Attr         Size   Compressed  Name";
                 "2024-01-01 10:00:00 .....            1            1  x.txt"]),
     None).
Proof.
  apply (getListing_text zipRun (setFile zeroTFile "a.zip") sampleListing
           ["7-Zip (z) 23.01"]
           ["Path = a.zip"; "Type = zip"; "";
            "   Date      Time    Attr         Size   Compressed  Name";
            "2024-01-01 10:00:00 .....            1            1  x.txt"]).
  - reflexivity.
  - reflexivity.
  - repeat constructor; discriminate.
Defined.

(** X4: without a line "--" (and without an "ERROR:" line) the simple
    listing contributes nothing: [getListing] succeeds and returns the
    handle as it was. *)
Theorem getListing_no_delimiter
    (run : engine) (f : TFile) (data : string) (lines : list string) :
  run BINARY_NAME (simpleArgs (File f)) = (data, None) →
  bufio.ScanLines data = (lines, None) →
  Forall preambleLine lines →
  getListing run f = (f, None).
Proof.
  unfold simpleArgs. intros Hrun Hscan Hpre.
  unfold getListing. rewrite Hrun, Hscan.
  by rewrite listing_preamble_loop.
Qed.

Lemma getListing_no_delimiter_witness :
  getListing (scripted noRun (sampleNoDelimiter, None) noRun noRun) sampleHandle
  = (sampleHandle, None).
Proof.
  apply (getListing_no_delimiter _ sampleHandle sampleNoDelimiter
           ["7-Zip (z) 23.01"; "Scanning the drive for archives:"]).
  - reflexivity.
  - reflexivity.
  - repeat constructor; discriminate.
Defined.

(** X5: an "ERROR:" line in the preamble of the simple listing makes
    [getListing] fail with that line as the error text and leaves the
    handle as it was; unlike in [getInfo], a line that contains
    "encrypted archive" is no exception. *)
Theorem getListing_error_line
    (run : engine) (f : TFile) (data l : string) (pre rest : list string) :
  run BINARY_NAME (simpleArgs (File f)) = (data, None) →
  bufio.ScanLines data = (pre ++ l :: rest, None) →
  Forall preambleLine pre →
  strings.HasPrefix l "ERROR:" = true →
  getListing run f = (f, Some (errors.New l)).
Proof.
  unfold simpleArgs. intros Hrun Hscan Hpre He.
  unfold getListing. rewrite Hrun, Hscan. clear Hscan.
  assert (Hloop :
    getListingLoop (f, Cursor.Start Cursor.zero) (pre ++ l :: rest)
    = Return f (Some (errors.New l))).
  { generalize (Cursor.Start Cursor.zero) (eq_refl :
      Cursor.Preamble (Cursor.Start Cursor.zero) = true).
    intros c Hc. induction Hpre as [|line more [He' Hd] _ IH].
    - cbn [app getListingLoop getListingStep]. by rewrite Hc, He.
    - cbn [app getListingLoop getListingStep]. rewrite Hc, He'.
      apply String.eqb_neq in Hd. rewrite Hd. exact IH. }
  by rewrite Hloop.
Qed.

Lemma getListing_error_line_witness :
  getListing (scripted noRun (sampleEncrypted, None) noRun noRun) sampleHandle
  = (sampleHandle,
     Some (errors.New
             "ERROR: a.7z : Can not open encrypted archive. Wrong password?")).
Proof.
  apply (getListing_error_line _ sampleHandle sampleEncrypted
           "ERROR: a.7z : Can not open encrypted archive. Wrong password?"
           ["7-Zip (z) 23.01"; ""] []).
  - reflexivity.
  - reflexivity.
  - repeat constructor; discriminate.
  - reflexivity.
Defined.

(** *** [Open]: the two listings together *)

Lemma parsed_handle_fresh (file : string) (lines : list string) (st : loopState) :
  getInfoLoop (getInfoStart (setFile zeroTFile file)) lines = Continue st →
  File (lf st) = file ∧ Listing (lf st) = "" ∧ ErrorState (lf st) = "".
Proof.
  intros Hl.
  destruct (getInfoLoop_frame lines (getInfoStart (setFile zeroTFile file)))
    as (Hf & _ & He & Hli & _).
  rewrite Hl in Hf, He, Hli. by cbn in *.
Qed.

(** X6: when the detailed listing is parsed to its end and the simple
    listing has the line "--" after preamble lines, [Open] succeeds and
    returns the parsed handle with, as Listing, the lines of the simple
    listing after its first "--", each followed by a newline. *)
Theorem open_listing_text
    (run : engine) (file data ldata : string) (lines pre rest : list string)
    (st : loopState) :
  run BINARY_NAME (detailedArgs file) = (data, None) →
  bufio.ScanLines data = (lines, None) →
  getInfoLoop (getInfoStart (setFile zeroTFile file)) lines = Continue st →
  run BINARY_NAME (simpleArgs file) = (ldata, None) →
  bufio.ScanLines ldata = (pre ++ "--" :: rest, None) →
  Forall preambleLine pre →
  Open run file = (setListing (lf st) (unlines rest), None).
Proof.
  intros Hrun Hscan Hloop Hlrun Hlscan Hpre.
  rewrite (Open_parsed _ _ _ _ Hrun Hscan), Hloop.
  destruct (parsed_handle_fresh _ _ _ Hloop) as (Hfile & Hlist & _).
  rewrite (getListing_text run (lf st) ldata pre rest); try done.
  - by rewrite Hlist.
  - by rewrite Hfile.
Qed.

Lemma open_listing_text_witness :
  Listing (Open zipRun "a.zip").1
  = unlines ["Path = a.zip"; "Type = zip"; "";
             "   Date      Time    Attr         Size   Compressed  Name";
             "2024-01-01 10:00:00 .....            1            1  x.txt"]
  ∧ (Open zipRun "a.zip").2 = None.
Proof.
  assert (Hloop : ∃ st,
    getInfoLoop (getInfoStart (setFile zeroTFile "a.zip"))
      (bufio.ScanLines sampleZip).1 = Continue st).
  { vm_compute. by eexists. }
  destruct Hloop as (st & Hloop).
  rewrite (open_listing_text zipRun "a.zip" sampleZip sampleListing
             (bufio.ScanLines sampleZip).1 ["7-Zip (z) 23.01"]
             ["Path = a.zip"; "Type = zip"; "";
              "   Date      Time    Attr         Size   Compressed  Name";
              "2024-01-01 10:00:00 .....            1            1  x.txt"]
             st eq_refl eq_refl Hloop eq_refl eq_refl).
  - split; reflexivity.
  - repeat constructor; discriminate.
Defined.

(** X7: when the detailed listing is parsed to its end but the tool fails
    on the simple listing, [Open] fails with the error of that run; the
    handle it returns still carries what the parse produced (Type,
    Encrypted, Header, Entries), with the output of the failed run in
    ErrorState and an empty Listing. *)
Theorem open_listing_failure
    (run : engine) (file data ldata : string) (lines : list string)
    (st : loopState) (e : error) :
  run BINARY_NAME (detailedArgs file) = (data, None) →
  bufio.ScanLines data = (lines, None) →
  getInfoLoop (getInfoStart (setFile zeroTFile file)) lines = Continue st →
  run BINARY_NAME (simpleArgs file) = (ldata, Some e) →
  Open run file = (setErrorState (lf st) ldata, Some e)
  ∧ Listing (Open run file).1 = ""
  ∧ Header (Open run file).1 = Header (lf st)
  ∧ Entries (Open run file).1 = Entries (lf st)
  ∧ Type_ (Open run file).1 = Type_ (lf st).
Proof.
  intros Hrun Hscan Hloop Hlrun.
  destruct (parsed_handle_fresh _ _ _ Hloop) as (Hfile & Hlist & _).
  assert (Hopen : Open run file = (setErrorState (lf st) ldata, Some e)).
  { rewrite (Open_parsed _ _ _ _ Hrun Hscan), Hloop.
    unfold getListing. unfold simpleArgs in Hlrun. by rewrite Hfile, Hlrun. }
  rewrite Hopen. by split_and!.
Qed.

Lemma open_listing_failure_witness :
  let run := scripted (sampleZip, None) ("no listing", Some (ExitError 2))
               noRun noRun in
  (Open run "a.zip").2 = Some (ExitError 2)
  ∧ ErrorState (Open run "a.zip").1 = "no listing"
  ∧ length (Entries (Open run "a.zip").1) = 2.
Proof.
  intros run.
  assert (Hloop : ∃ st,
    getInfoLoop (getInfoStart (setFile zeroTFile "a.zip"))
      (bufio.ScanLines sampleZip).1 = Continue st
    ∧ length (Entries (lf st)) = 2).
  { vm_compute. by eexists. }
  destruct Hloop as (st & Hloop & Hlen).
  destruct (open_listing_failure run "a.zip" sampleZip "no listing"
              (bufio.ScanLines sampleZip).1 st (ExitError 2)
              eq_refl eq_refl Hloop eq_refl) as (Hopen & _ & _ & He & _).
  rewrite He, Hopen. split; [reflexivity|]. split; [reflexivity|exact Hlen].
Defined.

(** *** The entries phase: stanzas and the Encrypted flag *)

Lemma entries_loop_stanzas (stanzas : list (list string)) (st : loopState) :
  inEntries (lcursor st) → lentry st = newEntry →
  Forall (Forall (λ l, l ≠ "")) stanzas →
  ∃ st', getInfoLoop st (stanzaLines stanzas) = Continue st'
       ∧ lcursor st' = lcursor st
       ∧ Entries (lf st') = Entries (lf st) ++ map entryOf stanzas
       ∧ lentry st' = newEntry.
Proof.
  revert st. induction stanzas as [|s ss IH]; intros st Hin Hnew Hall.
  - exists st. split_and!; try done. by rewrite app_nil_r.
  - inversion Hall as [|? ? Hs Hss]; subst.
    change (stanzaLines (s :: ss)) with ((s ++ [""]) ++ stanzaLines ss).
    rewrite !getInfoLoop_app.
    destruct (entries_loop_stanza s st Hin Hs) as (st1 & -> & Hc1 & He1 & Hk1 & _).
    assert (Hin1 : inEntries (lcursor st1)) by (by rewrite Hc1).
    cbn [getInfoLoop]. rewrite (blank_line_step _ Hin1).
    edestruct IH as (st' & -> & Hc' & He' & Hk'); [exact Hin1|done|exact Hss|].
    exists st'. cbn in *. split_and!; try done; [congruence|].
    rewrite He', He1, Hk1, Hnew. by rewrite <- app_assoc.
Qed.

(** X8: after the header delimiter, any number of stanzas of non-blank
    lines, each followed by a blank line, gives one entry per stanza, in
    the order of the stanzas; lines after the last blank line give none.
    The mapping of each entry holds the " = " pairs of its stanza, a
    later line overriding an earlier one with the same key. *)
Theorem entries_of_stanzas
    (f0 : TFile) (pre tail : list string) (stanzas : list (list string))
    (hst : loopState) :
  Entries f0 = [] →
  getInfoLoop (getInfoStart f0) pre = Continue hst →
  inHeader (lcursor hst) →
  Type_ (lf hst) ≠ "" →
  Forall (Forall (λ l, l ≠ "")) stanzas →
  Forall (λ l, l ≠ "") tail →
  Entries (handleOf (getInfoLoop (getInfoStart f0)
             (pre ++ "----------" :: stanzaLines stanzas ++ tail)))
  = map entryOf stanzas
  ∧ Forall (λ s, EData (entryOf s) = list_to_map (reverse (stanzaPairs s)))
      stanzas.
Proof.
  intros Hf0 Hpre Hh Hty Hst Htail. split.
  - rewrite (run_after_delimiter _ _ _ _ Hpre Hh Hty), getInfoLoop_app.
    assert (Hu : Entries (lf hst) = [] ∧ lentry hst = newEntry).
    { pose proof (getInfoLoop_untouched _ _ _ (getInfoStart_untouched _ Hf0) Hpre)
        as [[_ Hu]|Hu]; [|exact Hu].
      destruct Hh as [_ Hh]. congruence. }
    destruct Hu as [Hnil Hnew].
    edestruct (entries_loop_stanzas stanzas) as (st' & -> & Hc & He & _);
      [| |exact Hst|]; [done|exact Hnew|].
    cbn in Hc, He.
    edestruct (entries_loop_stanza tail st') as (st2 & -> & _ & He2 & _);
      [|exact Htail|]; [by rewrite Hc|].
    cbn. by rewrite He2, He, Hnil.
  - apply Forall_forall. intros s _. apply stanza_entry_pairs.
Qed.

Lemma entries_of_stanzas_witness :
  Entries (handleOf (getInfoLoop (getInfoStart (setFile zeroTFile "a.zip"))
             (["--"; "Type = zip"] ++ "----------"
              :: stanzaLines [["Path = a"]; []; ["Path = b"; "Size = 2"]]
              ++ ["Path = c"])))
  = map entryOf [["Path = a"]; []; ["Path = b"; "Size = 2"]].
Proof.
  eapply (entries_of_stanzas (setFile zeroTFile "a.zip") ["--"; "Type = zip"]
            ["Path = c"] [["Path = a"]; []; ["Path = b"; "Size = 2"]]).
  - reflexivity.
  - vm_compute. reflexivity.
  - split; reflexivity.
  - discriminate.
  - repeat constructor; discriminate.
  - repeat constructor; discriminate.
Defined.

Lemma encryptedMark_blank : encryptedMark "" = false.
Proof. reflexivity. Qed.

Lemma entries_flag_step (st : loopState) (line : string) :
  inEntries (lcursor st) →
  ∃ st', getInfoStep st line = Continue st'
       ∧ lcursor st' = lcursor st
       ∧ Encrypted (lf st') = Encrypted (lf st) || encryptedMark line
       ∧ Type_ (lf st') = Type_ (lf st)
       ∧ Header (lf st') = Header (lf st).
Proof.
  intros Hin. destruct (decide (line = "")) as [->|Hne].
  - rewrite (blank_line_step _ Hin). eexists. split; [reflexivity|].
    cbn. rewrite encryptedMark_blank, orb_false_r. done.
  - destruct Hin as [Hp Hh]. unfold getInfoStep. rewrite Hp, Hh.
    apply String.eqb_neq in Hne. rewrite Hne. cbn [negb].
    eexists. split; [reflexivity|]. unfold encryptedMark. cbn.
    destruct (strings.HasPrefix line "Encrypted = "),
             (strings.HasSuffix line "+"), (Encrypted (lf st)); done.
Qed.

(** X9: in the entries phase the loop never leaves [getInfo] early, and
    the Encrypted flag after any run of lines is the flag before or-ed
    with "some line begins with "Encrypted = " and ends with "+"": an
    entry can set the flag and none can clear it.  Type and Header are
    not written in this phase. *)
Theorem entries_phase_flags (ls : list string) (st : loopState) :
  inEntries (lcursor st) →
  ∃ st', getInfoLoop st ls = Continue st'
       ∧ Encrypted (lf st') = Encrypted (lf st) || existsb encryptedMark ls
       ∧ Type_ (lf st') = Type_ (lf st)
       ∧ Header (lf st') = Header (lf st).
Proof.
  revert st. induction ls as [|line rest IH]; intros st Hin.
  - exists st. cbn. by rewrite orb_false_r.
  - destruct (entries_flag_step st line Hin) as (st1 & Hs & Hc & He & Ht & Hh).
    cbn [getInfoLoop]. rewrite Hs.
    edestruct (IH st1) as (st' & -> & He' & Ht' & Hh'); [by rewrite Hc|].
    exists st'. split_and!; try congruence.
    rewrite He', He. cbn [existsb]. by rewrite orb_assoc.
Qed.

Lemma entries_phase_flags_witness :
  ∃ st', getInfoLoop
           (mkLoop sampleOpenHandle newEntry (Cursor.mkTCursor false false true))
           ["Path = open.txt"; "Encrypted = -"; "";
            "Path = secret.txt"; "Encrypted = +"; ""]
         = Continue st'
       ∧ Encrypted (lf st') = true.
Proof.
  destruct (entries_phase_flags
              ["Path = open.txt"; "Encrypted = -"; "";
               "Path = secret.txt"; "Encrypted = +"; ""]
              (mkLoop sampleOpenHandle newEntry (Cursor.mkTCursor false false true)))
    as (st' & Hl & He & _).
  - split; reflexivity.
  - exists st'. split; [exact Hl|]. rewrite He. reflexivity.
Defined.

(** *** The header block: the Type and Encrypted markers *)

Lemma header_marker_step (st : loopState) (l : string) :
  inHeader (lcursor st) → l ≠ "----------" →
  ∃ st', getInfoStep st l = Continue st'
       ∧ lcursor st' = lcursor st
       ∧ Type_ (lf st') = headerType (Type_ (lf st)) [l]
       ∧ Encrypted (lf st') = headerEncrypted (Encrypted (lf st)) [l].
Proof.
  intros [Hp Hh] Hne. unfold getInfoStep. rewrite Hp, Hh.
  destruct (String.eqb_spec l "") as [->|Hnb]; cbn [negb].
  - exists st. by split_and!.
  - apply String.eqb_neq in Hne. rewrite Hne.
    eexists. split; [reflexivity|]. unfold headerType, headerEncrypted.
    cbn [foldl lf lcursor].
    by destruct (strings.HasPrefix l "Type = "),
                (strings.HasPrefix l "Encrypted = ").
Qed.

Lemma header_marker_loop (hdr : list string) (st : loopState) :
  inHeader (lcursor st) → Forall (λ l, l ≠ "----------") hdr →
  ∃ st', getInfoLoop st hdr = Continue st'
       ∧ lcursor st' = lcursor st
       ∧ Type_ (lf st') = headerType (Type_ (lf st)) hdr
       ∧ Encrypted (lf st') = headerEncrypted (Encrypted (lf st)) hdr.
Proof.
  revert st. induction hdr as [|l rest IH]; intros st Hin Hall.
  - by exists st.
  - inversion Hall as [|? ? Hne Hrest]; subst.
    destruct (header_marker_step st l Hin Hne) as (st1 & Hs & Hc & Ht & He).
    cbn [getInfoLoop]. rewrite Hs.
    edestruct (IH st1) as (st' & -> & Hc' & Ht' & He'); [by rewrite Hc|done|].
    exists st'. split_and!; [done|congruence| |].
    + rewrite Ht', Ht. done.
    + rewrite He', He. done.
Qed.

Lemma headerType_unmarked (t0 : string) (hdr : list string) :
  Forall (λ l, strings.HasPrefix l "Type = " = false) hdr →
  headerType t0 hdr = t0.
Proof.
  intros Hall. revert t0. induction Hall as [|l rest Hl _ IH]; intros t0; [done|].
  unfold headerType in *. cbn [foldl]. rewrite Hl. apply IH.
Qed.

Lemma headerEncrypted_unmarked (b0 : bool) (hdr : list string) :
  Forall (λ l, strings.HasPrefix l "Encrypted = " = false) hdr →
  headerEncrypted b0 hdr = b0.
Proof.
  intros Hall. revert b0. induction Hall as [|l rest Hl _ IH]; intros b0; [done|].
  unfold headerEncrypted in *. cbn [foldl]. rewrite Hl. apply IH.
Qed.

(** X10: in the header block the last marker line decides.  The Type is
    what the last line that begins with "Type = " gives, the Encrypted
    flag is set exactly when the last line that begins with
    "Encrypted = " ends with "+"; a later such line overrides an earlier
    one, and without such a line the value is left as it was. *)
Theorem header_last_marker_wins (hdr : list string) (st : loopState) :
  inHeader (lcursor st) →
  Forall (λ l, l ≠ "----------") hdr →
  ∃ st', getInfoLoop st hdr = Continue st'
    ∧ (∀ h1 l h2, hdr = h1 ++ l :: h2 →
         strings.HasPrefix l "Type = " = true →
         Forall (λ x, strings.HasPrefix x "Type = " = false) h2 →
         Type_ (lf st') = strings.ReplaceAll l "Type = " "")
    ∧ (∀ h1 l h2, hdr = h1 ++ l :: h2 →
         strings.HasPrefix l "Encrypted = " = true →
         Forall (λ x, strings.HasPrefix x "Encrypted = " = false) h2 →
         Encrypted (lf st') = strings.HasSuffix l "+")
    ∧ (Forall (λ x, strings.HasPrefix x "Type = " = false) hdr →
         Type_ (lf st') = Type_ (lf st))
    ∧ (Forall (λ x, strings.HasPrefix x "Encrypted = " = false) hdr →
         Encrypted (lf st') = Encrypted (lf st)).
Proof.
  intros Hin Hall.
  destruct (header_marker_loop hdr st Hin Hall) as (st' & Hl & _ & Ht & He).
  exists st'. split_and!; [done| | | |].
  - intros h1 l h2 -> Hpre Hrest. rewrite Ht. unfold headerType.
    rewrite foldl_app. cbn [foldl]. rewrite Hpre.
    by apply headerType_unmarked.
  - intros h1 l h2 -> Hpre Hrest. rewrite He. unfold headerEncrypted.
    rewrite foldl_app. cbn [foldl]. rewrite Hpre.
    by apply headerEncrypted_unmarked.
  - intros Hno. rewrite Ht. by apply headerType_unmarked.
  - intros Hno. rewrite He. by apply headerEncrypted_unmarked.
Qed.

Lemma header_last_marker_wins_witness :
  ∃ st', getInfoLoop
           (mkLoop sampleOpenHandle newEntry (Cursor.mkTCursor false true false))
           ["Type = 7z"; "Encrypted = +"; "Type = Split"; "Encrypted = -"; ""]
         = Continue st'
       ∧ Type_ (lf st') = "Split" ∧ Encrypted (lf st') = false.
Proof.
  destruct (header_last_marker_wins
              ["Type = 7z"; "Encrypted = +"; "Type = Split"; "Encrypted = -"; ""]
              (mkLoop sampleOpenHandle newEntry (Cursor.mkTCursor false true false)))
    as (st' & Hl & Ht & He & _).
  - split; reflexivity.
  - repeat constructor; discriminate.
  - exists st'. split; [exact Hl|]. split.
    + rewrite (Ht ["Type = 7z"; "Encrypted = +"] "Type = Split"
                 ["Encrypted = -"; ""] eq_refl eq_refl).
      * reflexivity.
      * repeat constructor.
    + rewrite (He ["Type = 7z"; "Encrypted = +"; "Type = Split"] "Encrypted = -"
                 [""] eq_refl eq_refl).
      * reflexivity.
      * repeat constructor.
Defined.

(** *** The key/value extractor *)

Lemma Contains_unfold (s sub : string) :
  strings.Contains s sub =
    if strings.HasPrefix s sub then true
    else match s with
         | EmptyString => false
         | String _ s' => strings.Contains s' sub
         end.
Proof. by destruct s. Qed.

Lemma Cut_unfold (s sep : string) :
  strings.Cut s sep =
    if strings.HasPrefix s sep
    then Some (EmptyString, strings.drop (String.length sep) s)
    else match s with
         | EmptyString => None
         | String c s' =>
             match strings.Cut s' sep with
             | Some (before, after) => Some (String c before, after)
             | None => None
             end
         end.
Proof. by destruct s. Qed.

Lemma Cut_absent (s sep : string) :
  strings.Contains s sep = false → strings.Cut s sep = None.
Proof.
  induction s as [|c s IH]; rewrite Contains_unfold, Cut_unfold;
    destruct (strings.HasPrefix _ sep); try done.
  intros H. by rewrite IH.
Qed.

Lemma HasPrefix_self (p s : string) : strings.HasPrefix (p +:+ s) p = true.
Proof.
  induction p as [|a p IH]; [done|].
  rewrite append_cons, HasPrefix_cons, IH. by rewrite Ascii.eqb_refl.
Qed.

Lemma drop_self (p s : string) : strings.drop (String.length p) (p +:+ s) = s.
Proof. induction p as [|a p IH]; [done|]. exact IH. Qed.

Lemma HasPrefix_longer (p s t : string) :
  String.length p ≤ String.length s →
  strings.HasPrefix (s +:+ t) p = strings.HasPrefix s p.
Proof.
  revert s. induction p as [|a p IH]; intros s Hlen; [done|].
  destruct s as [|b s]; [cbn in Hlen; lia|].
  rewrite append_cons, !HasPrefix_cons.
  destruct (Ascii.eqb a b); [|done]. apply IH. cbn in Hlen. lia.
Qed.

Lemma length_append (a b : string) :
  String.length (a +:+ b) = String.length a + String.length b.
Proof. induction a as [|x a IH]; [done|]. rewrite append_cons. cbn. by rewrite IH. Qed.

(** The first instance of a separator [s0 ++ [c]] in [k ++ sep ++ v] is
    the one written out when no instance begins inside [k]. *)
Lemma Cut_key_value (k s0 v : string) (c : ascii) :
  strings.Contains (k +:+ s0) (s0 +:+ String c "") = false →
  strings.Cut (k +:+ (s0 +:+ String c "") +:+ v) (s0 +:+ String c "")
  = Some (k, v).
Proof.
  induction k as [|a k IH]; intros Hno.
  - change ("" +:+ (s0 +:+ String c "") +:+ v) with ((s0 +:+ String c "") +:+ v).
    by rewrite Cut_unfold, HasPrefix_self, drop_self.
  - rewrite append_cons in Hno. rewrite Contains_unfold in Hno.
    destruct (strings.HasPrefix (String a (k +:+ s0)) (s0 +:+ String c ""))
      eqn:Hpre; [done|].
    rewrite append_cons, Cut_unfold.
    assert (Hsame : String a (k +:+ (s0 +:+ String c "") +:+ v)
                    = String a (k +:+ s0) +:+ String c v).
    { rewrite append_cons. f_equal.
      rewrite (append_assoc k s0), (append_assoc s0 (String c "") v).
      reflexivity. }
    rewrite Hsame at 1. rewrite HasPrefix_longer, Hpre.
    + by rewrite IH.
    + rewrite length_append. cbn. rewrite length_append. cbn. lia.
Qed.

(** X11: a line "key = value" is recorded under its key, in the Header
    and in an entry alike, whenever no " = " begins inside the key; the
    value may itself contain " = ".  The key then maps to the value and
    every other key keeps what it had. *)
Theorem addKey_records_pair (h : THeader) (e : TEntry) (k v : string) :
  strings.Contains (k +:+ " =") " = " = false →
  let line := k +:+ " = " +:+ v in
  THeader_.addKey h line = mkTHeader (<[k := v]> (HData h))
  ∧ TEntry_.addKey e line = mkTEntry (<[k := v]> (EData e))
  ∧ HData (THeader_.addKey h line) !! k = Some v
  ∧ EData (TEntry_.addKey e line) !! k = Some v
  ∧ (∀ k', k' ≠ k →
       HData (THeader_.addKey h line) !! k' = HData h !! k'
       ∧ EData (TEntry_.addKey e line) !! k' = EData e !! k').
Proof.
  intros Hno line.
  assert (Hcut : strings.Cut line " = " = Some (k, v)).
  { exact (Cut_key_value k " =" v " " Hno). }
  assert (Hh : THeader_.addKey h line = mkTHeader (<[k := v]> (HData h))).
  { unfold THeader_.addKey. by rewrite Hcut. }
  assert (He : TEntry_.addKey e line = mkTEntry (<[k := v]> (EData e))).
  { unfold TEntry_.addKey. by rewrite Hcut. }
  rewrite Hh, He. cbn [HData EData].
  split_and!; try done; try apply lookup_insert_eq.
  intros k' Hk. by rewrite !lookup_insert_ne.
Qed.

Lemma addKey_records_pair_witness :
  HData (THeader_.addKey newHeader "Comment = a = b") !! "Comment" = Some "a = b"
  ∧ EData (TEntry_.addKey newEntry "Comment = a = b") !! "Comment" = Some "a = b".
Proof.
  destruct (addKey_records_pair newHeader newEntry "Comment" "a = b" eq_refl)
    as (_ & _ & Hh & He & _).
  split; [exact Hh|exact He].
Defined.

(** X12: a line "key: value" that has no " = " is recorded in the Header
    under its key (when no ": " begins inside the key), but an entry
    ignores it. *)
Theorem addKey_colon_header_only (h : THeader) (e : TEntry) (k v : string) :
  strings.Contains (k +:+ ": " +:+ v) " = " = false →
  strings.Contains (k +:+ ":") ": " = false →
  let line := k +:+ ": " +:+ v in
  THeader_.addKey h line = mkTHeader (<[k := v]> (HData h))
  ∧ HData (THeader_.addKey h line) !! k = Some v
  ∧ TEntry_.addKey e line = e.
Proof.
  intros Hnoeq Hno line. subst line.
  set (line := k +:+ ": " +:+ v) in *.
  assert (Hcut : strings.Cut line ": " = Some (k, v)).
  { exact (Cut_key_value k ":" v " " Hno). }
  assert (Hh : THeader_.addKey h line = mkTHeader (<[k := v]> (HData h))).
  { unfold THeader_.addKey. by rewrite (Cut_absent _ _ Hnoeq), Hcut. }
  rewrite Hh. cbn [HData]. split_and!; [done|apply lookup_insert_eq|].
  unfold TEntry_.addKey. by rewrite (Cut_absent _ _ Hnoeq).
Qed.

Lemma addKey_colon_header_only_witness :
  HData (THeader_.addKey newHeader "Path: a.zip") !! "Path" = Some "a.zip"
  ∧ TEntry_.addKey newEntry "Path: a.zip" = newEntry.
Proof.
  destruct (addKey_colon_header_only newHeader newEntry "Path" "a.zip"
              eq_refl eq_refl) as (_ & Hh & He).
  split; [exact Hh|exact He].
Defined.

(** X13: a line without a separator is ignored: an entry is unchanged by
    a line that has no " = ", and the Header by a line that has neither
    " = " nor ": ". *)
Theorem addKey_ignores_plain_line (h : THeader) (e : TEntry) (l : string) :
  strings.Contains l " = " = false →
  TEntry_.addKey e l = e
  ∧ (strings.Contains l ": " = false → THeader_.addKey h l = h).
Proof.
  intros Hnoeq. split.
  - unfold TEntry_.addKey. by rewrite (Cut_absent _ _ Hnoeq).
  - intros Hnocolon. unfold THeader_.addKey.
    by rewrite (Cut_absent _ _ Hnoeq), (Cut_absent _ _ Hnocolon).
Qed.

Lemma addKey_ignores_plain_line_witness :
  TEntry_.addKey newEntry "Listing archive" = newEntry
  ∧ THeader_.addKey newHeader "Listing archive" = newHeader.
Proof.
  destruct (addKey_ignores_plain_line newHeader newEntry "Listing archive" eq_refl)
    as (He & Hh).
  split; [exact He|apply Hh; reflexivity].
Defined.

(** *** What a handle with entries tells *)

Lemma getInfoStep_typed (st st' : loopState) (line : string) :
  typedEntries st → getInfoStep st line = Continue st' → typedEntries st'.
Proof.
  unfold typedEntries, inEntries. intros Ht.
  destruct st as [f e [p h en]]; cbn in *.
  step_cases; intros; simplify_eq/=;
    try (by apply String.eqb_neq);
    try (by apply Ht);
    try (by destruct_and?; simplify_eq/=).
Qed.

Lemma getInfoLoop_typed (lines : list string) (st st' : loopState) :
  typedEntries st → getInfoLoop st lines = Continue st' → typedEntries st'.
Proof.
  revert st. induction lines as [|line rest IH]; intros st Ht; cbn.
  - by intros [= <-].
  - destruct (getInfoStep st line) as [st1|f e] eqn:Hs; [|done].
    apply IH. by eapply getInfoStep_typed.
Qed.

(** X14: a handle returned by [Open] that has entries has a Type: the
    entries phase is entered only through the delimiter "----------",
    which is passed only with a non-empty Type, and that holds whether
    [Open] succeeded or failed. *)
Theorem open_entries_imply_type (run : engine) (file : string) :
  Entries (Open run file).1 ≠ [] → Type_ (Open run file).1 ≠ "".
Proof.
  unfold Open, getInfo. cbn [File setFile].
  destruct (run _ _) as [data [e|]]; [done|].
  destruct (bufio.ScanLines data) as [lines [e|]]; [done|].
  set (st0 := getInfoStart (setFile zeroTFile file)).
  assert (Hu0 : untouched st0) by (by apply getInfoStart_untouched).
  assert (Ht0 : typedEntries st0) by (by intros [? _]).
  destruct (getInfoLoop st0 lines) as [st|f e] eqn:Hl.
  - destruct (getListing_kept run (lf st)) as (_ & HT & _ & HE & _).
    rewrite HT, HE. intros Hne.
    apply (getInfoLoop_typed _ _ _ Ht0 Hl).
    by destruct (getInfoLoop_untouched _ _ _ Hu0 Hl) as [?|[? _]].
  - cbn. intros Hne. by rewrite (getInfoLoop_return_early _ _ _ _ Hu0 Hl) in Hne.
Qed.

Lemma open_entries_imply_type_witness :
  Type_ (Open zipRun "a.zip").1 ≠ "".
Proof.
  apply open_entries_imply_type. vm_compute. discriminate.
Defined.

(** *** What the later operations do to the handle *)

(** X15: [TestPassword] writes at most ErrorState, and only to store the
    output of a run of the tool that failed; it does not run the tool at
    all for a handle without Type or not marked Encrypted.
    [ExtractWithPassword] and [ExtractTo] never change the handle: the
    output of a failed extraction is in the returned error only. *)
Theorem later_operations_frame
    (run : engine) (f : TFile) (folder password : string) :
  let f' := (TestPassword run f password).2 in
  (f' = f
   ∨ ∃ data e,
       run BINARY_NAME (testArgs password (File f)) = (data, Some e)
       ∧ Type_ f ≠ "" ∧ Encrypted f = true
       ∧ f' = setErrorState f data)
  ∧ (Type_ f = "" ∨ Encrypted f = false →
       ∀ run', TestPassword run' f password = (false, f))
  ∧ (ExtractWithPassword run f folder password).2 = f
  ∧ (ExtractTo run f folder).2 = f.
Proof.
  intros f'.
  assert (Hx : ∀ pw, (ExtractWithPassword run f folder pw).2 = f).
  { intros pw. unfold ExtractWithPassword.
    destruct (run _ _) as [data e].
    destruct (bufio.ScanLines data) as [lines [e'|]]; [done|].
    by destruct (hasOkLine lines). }
  split_and!; [| |apply Hx|apply Hx].
  - subst f'. unfold TestPassword, testArgs.
    destruct (String.eqb_spec (Type_ f) "") as [Hty|Hty]; cbn; [by left|].
    destruct (Encrypted f) eqn:Hen; cbn; [|by left].
    destruct (run _ _) as [data [e|]] eqn:Hrun.
    + right. by exists data, e.
    + left. by destruct (bufio.ScanLines data) as [lines [e|]].
  - intros Hgate run'. unfold TestPassword.
    destruct Hgate as [-> | ->]; [done|]. by rewrite orb_true_r.
Qed.

Lemma later_operations_frame_witness :
  TestPassword (scripted noRun noRun (sampleTestOk, None) noRun)
    sampleOpenHandle "secret" = (false, sampleOpenHandle).
Proof.
  destruct (later_operations_frame zipRun sampleOpenHandle "out" "secret")
    as (_ & Hgate & _).
  apply Hgate. right. reflexivity.
Defined.

(** X16: after an open that ended in the encrypted-archive case, the
    handle passes the gate of [TestPassword]: the verdict is the one the
    output of the test run gives, for any password. *)
Theorem sentinel_then_TestPassword
    (run : engine) (file data l password tdata : string)
    (pre rest tlines : list string) :
  run BINARY_NAME (detailedArgs file) = (data, None) →
  bufio.ScanLines data = (pre ++ l :: rest, None) →
  Forall preambleLine pre →
  strings.HasPrefix l "ERROR:" = true →
  strings.Contains l "encrypted archive" = true →
  run BINARY_NAME (testArgs password file) = (tdata, None) →
  bufio.ScanLines tdata = (tlines, None) →
  TestPassword run (Open run file).1 password
  = (passwordVerdict tlines, (Open run file).1).
Proof.
  intros Hrun Hscan Hpre He Hc Htrun Htscan.
  assert (Hopen : (Open run file).1
    = mkTFile file "encrypted archive" "" (Some newHeader) [] true "" "").
  { rewrite (Open_parsed _ _ _ _ Hrun Hscan), getInfoLoop_app.
    rewrite preamble_loop by done.
    cbn [getInfoLoop]. rewrite preamble_error_step by done.
    by rewrite Hc. }
  rewrite Hopen. unfold TestPassword. cbn [Type_ Encrypted File].
  change (String.eqb "encrypted archive" "" || negb true) with false. cbv iota.
  unfold testArgs in Htrun. by rewrite Htrun, Htscan.
Qed.

Lemma sentinel_then_TestPassword_witness :
  (TestPassword (scripted (sampleEncrypted, None) noRun (sampleTestOk, None) noRun)
     (Open (scripted (sampleEncrypted, None) noRun (sampleTestOk, None) noRun)
        "a.7z").1 "secret").1 = true.
Proof.
  rewrite (sentinel_then_TestPassword
             (scripted (sampleEncrypted, None) noRun (sampleTestOk, None) noRun)
             "a.7z" sampleEncrypted
             "ERROR: a.7z : Can not open encrypted archive. Wrong password?"
             "secret" sampleTestOk ["7-Zip (z) 23.01"; ""] []
             ["7-Zip (z) 23.01"; ""; "Everything is Ok"]).
  - reflexivity.
  - reflexivity.
  - reflexivity.
  - repeat constructor; discriminate.
  - reflexivity.
  - reflexivity.
  - reflexivity.
  - reflexivity.
Defined.

(** *** The Header mapping *)

Lemma header_block_loop (hdr : list string) (st : loopState) (h : THeader) :
  inHeader (lcursor st) → Header (lf st) = Some h →
  Forall (λ l, l ≠ "----------") hdr →
  ∃ st', getInfoLoop st hdr = Continue st'
       ∧ lcursor st' = lcursor st
       ∧ Header (lf st') = Some (foldl THeader_.addKey h hdr).
Proof.
  revert st h. induction hdr as [|l rest IH]; intros st h Hin Hhd Hall.
  - by exists st.
  - inversion Hall as [|? ? Hne Hrest]; subst.
    destruct (header_line_step st l h Hin Hhd Hne) as (f & Hs & _ & Hh & _).
    cbn [getInfoLoop]. rewrite Hs.
    edestruct (IH (mkLoop f (lentry st) (lcursor st)))
      as (st' & -> & Hc & Hh'); [exact Hin|exact Hh|exact Hrest|].
    by exists st'.
Qed.

Lemma header_fold_other (hdr : list string) (h : THeader) (k : string) :
  Forall (λ x, ∀ v', headerPair x ≠ Some (k, v')) hdr →
  HData (foldl THeader_.addKey h hdr) !! k = HData h !! k.
Proof.
  intros Hall. revert h. induction Hall as [|l rest Hl _ IH]; intros h; [done|].
  cbn [foldl]. rewrite IH, addKey_headerPair.
  destruct (headerPair l) as [[k' v']|] eqn:Hp; [|done]. cbn.
  apply lookup_insert_ne. intros ->. by apply (Hl v').
Qed.

(** X17: the Header mapping after a header block.  Every line of the
    block but the blank ones is given to [addKey]; for each key the last
    line that denotes a pair for it decides the value, and a key that no
    line denotes keeps the value it had. *)
Theorem header_block_mapping (hdr : list string) (st : loopState) (h : THeader) :
  inHeader (lcursor st) →
  Header (lf st) = Some h →
  Forall (λ l, l ≠ "----------") hdr →
  ∃ st' h',
    getInfoLoop st hdr = Continue st'
    ∧ Header (lf st') = Some h'
    ∧ (∀ h1 l h2 k v, hdr = h1 ++ l :: h2 →
         headerPair l = Some (k, v) →
         Forall (λ x, ∀ v', headerPair x ≠ Some (k, v')) h2 →
         HData h' !! k = Some v)
    ∧ (∀ k, Forall (λ x, ∀ v', headerPair x ≠ Some (k, v')) hdr →
         HData h' !! k = HData h !! k).
Proof.
  intros Hin Hhd Hall.
  destruct (header_block_loop hdr st h Hin Hhd Hall) as (st' & Hl & _ & Hh).
  exists st', (foldl THeader_.addKey h hdr). split_and!; try done.
  - intros h1 l h2 k v -> Hp Hrest.
    rewrite foldl_app. cbn [foldl]. rewrite header_fold_other by done.
    rewrite addKey_headerPair, Hp. cbn. apply lookup_insert_eq.
  - intros k Hno. by apply header_fold_other.
Qed.

Lemma header_block_mapping_witness :
  ∃ st' h',
    getInfoLoop
      (mkLoop sampleOpenHandle newEntry (Cursor.mkTCursor false true false))
      ["Path = a.zip"; ""; "Path = b.zip"; "Comment: none"]
    = Continue st'
    ∧ Header (lf st') = Some h'
    ∧ HData h' !! "Path" = Some "b.zip"
    ∧ HData h' !! "Type" = None.
Proof.
  destruct (header_block_mapping
              ["Path = a.zip"; ""; "Path = b.zip"; "Comment: none"]
              (mkLoop sampleOpenHandle newEntry (Cursor.mkTCursor false true false))
              newHeader)
    as (st' & h' & Hl & Hh & Hlast & Hkeep).
  - split; reflexivity.
  - reflexivity.
  - repeat constructor; discriminate.
  - exists st', h'. split; [exact Hl|]. split; [exact Hh|]. split.
    + apply (Hlast ["Path = a.zip"; ""] "Path = b.zip" ["Comment: none"]
               "Path" "b.zip" eq_refl eq_refl).
      repeat constructor. intros v' Hv. vm_compute in Hv. discriminate.
    + rewrite (Hkeep "Type"); [reflexivity|].
      repeat constructor; intros v' Hv; vm_compute in Hv; discriminate.
Defined.
